(** * A shallow embedding of django-velcro

    The settings ([VELCRO_METADATA], [VELCRO_RELATIONSHIPS], ...), the
    start-up code of [models.py] and [admin.py], the query helpers of
    [utils.py], and the slice of the Django ORM they go through (field
    resolution of lookups, [get], [filter], [get_or_create], [create],
    [Model.save], the admin registry) are modelled as explicit state passing
    with Python exceptions as an error outcome. *)

From Stdlib Require Import String Ascii List Bool Arith Lia NArith.
From Stdlib Require Import Sorting.Sorted Sorting.Permutation.
Import ListNotations.
Open Scope list_scope.
Open Scope string_scope.

(** ** Python string helpers (ASCII) *)

Definition ascii_lower (c : ascii) : ascii :=
  let n := nat_of_ascii c in
  if (65 <=? n)%nat && (n <=? 90)%nat then ascii_of_nat (n + 32)%nat else c.

Definition ascii_upper (c : ascii) : ascii :=
  let n := nat_of_ascii c in
  if (97 <=? n)%nat && (n <=? 122)%nat then ascii_of_nat (n - 32)%nat else c.

(** [str.lower()] *)
Fixpoint lower (s : string) : string :=
  match s with
  | EmptyString => EmptyString
  | String c s' => String (ascii_lower c) (lower s')
  end.

(** [str.capitalize()]: first character upper case, the rest lower case. *)
Definition capitalize (s : string) : string :=
  match s with
  | EmptyString => EmptyString
  | String c s' => String (ascii_upper c) (lower s')
  end.

(** Python's [sorted] (stable), as an insertion sort on a boolean order:
    [String.leb] is Python's code-point order on strings, [pair_leb] its
    lexicographic order on 2-tuples of strings. *)
Fixpoint insert_by {A} (le : A -> A -> bool) (x : A) (l : list A) : list A :=
  match l with
  | [] => [x]
  | y :: l' => if le x y then x :: l else y :: insert_by le x l'
  end.

Fixpoint sorted_by {A} (le : A -> A -> bool) (l : list A) : list A :=
  match l with
  | [] => []
  | x :: l' => insert_by le x (sorted_by le l')
  end.

Definition key_leb {A} (key : A -> string) (x y : A) : bool :=
  String.leb (key x) (key y).

Definition pair_leb (x y : string * string) : bool :=
  String.ltb (fst x) (fst y) ||
  (String.eqb (fst x) (fst y) && String.leb (snd x) (snd y)).

Definition sorted_strings (l : list string) : list string :=
  sorted_by String.leb l.

(** [a, b = sorted((x, y))] *)
Definition sorted2 (r : string * string) : string * string :=
  let (x, y) := r in if String.leb x y then (x, y) else (y, x).

(** The reverse of a string (used to compare suffixes). *)
Fixpoint string_rev (s : string) : string :=
  match s with
  | EmptyString => EmptyString
  | String c s' => string_rev s' ++ String c EmptyString
  end.

(** [x in l] for a list of strings *)
Definition mem (x : string) (l : list string) : bool :=
  existsb (String.eqb x) l.

(** ** Settings *)

(** One entry of [VELCRO_METADATA[t]['apps']]. *)
Record app_entry := mk_app_entry {
  app_label : string;
  model : string;
  view : string;
  url_args : list string
}.

Record velcro_type_metadata := mk_velcro_type_metadata {
  apps : list app_entry
}.

(** [VELCRO_METADATA] is a dict (insertion ordered, distinct keys);
    [VELCRO_RELATIONSHIPS] a list of 2-tuples. *)
Definition metadata := list (string * velcro_type_metadata).
Definition relationships := list (string * string).

(** The [_meta] of a Django model class: [app_label] and [object_name]
    (the class name). *)
Record model_class := mk_model_class {
  mc_app_label : string;
  mc_object_name : string
}.

(** A saved model instance: its class and its integer primary key [id]. *)
Record obj := mk_obj {
  obj_class : model_class;
  obj_id : nat
}.

(** Django's [Model.__eq__] on saved instances: same concrete model, same pk. *)
Definition obj_eqb (a b : obj) : bool :=
  String.eqb (mc_app_label (obj_class a)) (mc_app_label (obj_class b)) &&
  String.eqb (mc_object_name (obj_class a)) (mc_object_name (obj_class b)) &&
  Nat.eqb (obj_id a) (obj_id b).

Section Utils.

Variable VELCRO_METADATA : metadata.
Variable VELCRO_RELATIONSHIPS : relationships.

(** [get_all_velcro_types] *)
Definition get_all_velcro_types : list string :=
  sorted_strings (map fst VELCRO_METADATA).

(** [get_velcro_type] (on the class of the object). *)
Definition entry_matches (app_label_ model_ : string) (e : app_entry) : bool :=
  String.eqb (app_label e) app_label_ && String.eqb (model e) model_.

Fixpoint first_velcro_type (app_label_ model_ : string)
    (items : list (string * velcro_type_metadata)) : option string :=
  match items with
  | [] => None
  | (t, md) :: rest =>
      if existsb (entry_matches app_label_ model_) (apps md) then Some t
      else first_velcro_type app_label_ model_ rest
  end.

Definition get_velcro_type (c : model_class) : option string :=
  let app_label_ := lower (mc_app_label c) in
  let model_ := mc_object_name c in
  first_velcro_type app_label_ model_ (sorted_by (key_leb fst) VELCRO_METADATA).

(** [is_valid_velcro_type] *)
Definition is_valid_velcro_type (t : string) : bool :=
  mem t (map fst VELCRO_METADATA).

(** [get_related_types] *)
Definition rel_contains (t : string) (r : string * string) : bool :=
  String.eqb (fst r) t || String.eqb (snd r) t.

Definition rel_other (t : string) (r : string * string) : string :=
  if String.eqb (fst r) t then snd r else fst r.

Fixpoint related_types_loop (t : string) (rs : relationships) : list string :=
  match rs with
  | [] => []
  | r :: rs' =>
      if rel_contains t r then rel_other t r :: related_types_loop t rs'
      else related_types_loop t rs'
  end.

Definition get_related_types (t : string) : list string :=
  sorted_strings (related_types_loop t VELCRO_RELATIONSHIPS).

(** [validate_related_types]: the valid related types and the warnings it
    prints (one per rejected entry; the source prints [set(errors)]). *)
Fixpoint validate_loop (t : string) (all_related : list string)
    (rts valid errors : list string) : list string * list string :=
  match rts with
  | [] => (valid, errors)
  | rt :: rts' =>
      if negb (is_valid_velcro_type rt) then
        validate_loop t all_related rts' valid
          (app errors ["'" ++ rt ++ "' is not a valid velcro type."])
      else if negb (mem rt all_related) then
        validate_loop t all_related rts' valid
          (app errors ["'" ++ rt ++ "' is not a related velcro type for '"
                      ++ t ++ "'."])
      else if mem rt valid then
        validate_loop t all_related rts' valid
          (app errors ["'" ++ rt ++ "' is a valid related velcro type, but "
                      ++ "occurs multiple times."])
      else validate_loop t all_related rts' (app valid [rt]) errors
  end.

Definition validate_related_types (t : string) (rts : list string)
    : list string * list string :=
  validate_loop t (get_related_types t) rts [] [].

(** [get_or_validate_related_types]; [None] is Python's [None] and the
    truth test [if related_types] is false for [None] and for [()]. *)
Definition get_or_validate_related_types (t : string)
    (related_types : option (list string)) : list string * list string :=
  match related_types with
  | Some ((_ :: _) as l) => validate_related_types t l
  | _ => (get_related_types t, [])
  end.

End Utils.

(** ** The slice of Django used by the generated code *)

(** A [ContentType] row: [app_label] and the lower-cased model name. *)
Record content_type := mk_content_type {
  ct_app_label : string;
  ct_model : string
}.

Definition ct_eqb (a b : content_type) : bool :=
  String.eqb (ct_app_label a) (ct_app_label b) &&
  String.eqb (ct_model a) (ct_model b).

(** [ContentType.objects.get_for_model(obj)] *)
Definition get_for_model (c : model_class) : content_type :=
  mk_content_type (mc_app_label c) (lower (mc_object_name c)).

(** A [Q] object on [ContentType] used as [limit_choices_to]: [QEmpty] is
    [models.Q()], [QAny l] the disjunction of [Q(app_label=a, model=m)] for
    the pairs [(a, m)] of [l]. *)
Inductive ct_q :=
| QEmpty
| QAny (l : list (string * string)).

(** [Q.__or__]: Django's [_combine] returns a copy of the other operand when
    one operand is empty. *)
Definition q_or (a b : ct_q) : ct_q :=
  match a, b with
  | _, QEmpty => a
  | QEmpty, _ => b
  | QAny l1, QAny l2 => QAny (l1 ++ l2)
  end.

(** The content types a [limit_choices_to] admits. *)
Definition q_admits (q : ct_q) (ct : content_type) : bool :=
  match q with
  | QEmpty => true
  | QAny l => existsb (fun '(a, m) => String.eqb (ct_app_label ct) a &&
                                       String.eqb (ct_model ct) m) l
  end.

(** Model fields used by the generated models. *)
Inductive field :=
| AutoField
| ForeignKeyContentType (limit_choices_to : ct_q) (related_name : string)
| PositiveIntegerField
| GenericForeignKey (ct_field fk_field : string)
| CharField (max_length : nat) (blank : bool).

(** Concrete (database) fields; a [GenericForeignKey] is a virtual field. *)
Definition is_concrete (f : field) : bool :=
  match f with GenericForeignKey _ _ => false | _ => true end.

Definition is_fk (f : field) : bool :=
  match f with ForeignKeyContentType _ _ => true | _ => false end.

(** Which relationship base class a generated model derives from. *)
Inductive rel_kind :=
| DiffType (object_1_velcro_type object_2_velcro_type : string)
| SameType (velcro_type : string).

(** A generated relationship model class. *)
Record rel_model := mk_rel_model {
  rm_name : string;
  rm_kind : rel_kind;
  rm_fields : list (string * field);
  rm_ordering : list string;
  rm_unique_together : list (list string)
}.

Definition field_names (m : rel_model) : list string := map fst (rm_fields m).

(** A lookup keyword resolves if it names a concrete field, or is the
    [attname] ([<name>_id]) of a foreign key. *)
Definition resolves (m : rel_model) (k : string) : bool :=
  existsb (fun '(n, f) =>
             is_concrete f &&
             (String.eqb n k || (is_fk f && String.eqb (n ++ "_id") k)))
          (rm_fields m).

(** [Model.__init__] accepts a keyword that is a field (also a virtual one)
    or the [attname] of a foreign key. *)
Definition accepts_kwarg (m : rel_model) (k : string) : bool :=
  existsb (fun '(n, f) =>
             String.eqb n k || (is_fk f && String.eqb (n ++ "_id") k))
          (rm_fields m).

(** Values stored in a row. *)
Inductive value :=
| VCT (ct : content_type)
| VInt (n : nat)
| VStr (s : string).

Definition value_eqb (a b : value) : bool :=
  match a, b with
  | VCT x, VCT y => ct_eqb x y
  | VInt x, VInt y => Nat.eqb x y
  | VStr x, VStr y => String.eqb x y
  | _, _ => false
  end.

Record row := mk_row {
  row_pk : nat;
  row_vals : list (string * value)
}.

Fixpoint assoc (k : string) (l : list (string * value)) : option value :=
  match l with
  | [] => None
  | (k', v) :: l' => if String.eqb k k' then Some v else assoc k l'
  end.

(** The database: the rows of each table, by model name. *)
Definition db := string -> list row.

Definition db_set (d : db) (name : string) (rows : list row) : db :=
  fun n => if String.eqb n name then rows else d n.

(** Python exceptions that can escape or be caught. *)
Inductive exn :=
| FieldError
| TypeError
| DoesNotExist
| MultipleObjectsReturned
| IntegrityError
| ValueError
| LookupError
| AttributeError
| KeyError
| AlreadyRegistered
| ImportError.

Inductive result (A : Type) :=
| Ok (a : A)
| Raise (e : exn).
Arguments Ok {A} a.
Arguments Raise {A} e.

(** Database actions: state passing with exceptions; changes made before an
    exception stay in the database. *)
Definition M (A : Type) := db -> result A * db.

Definition ret {A} (a : A) : M A := fun d => (Ok a, d).
Definition raise {A} (e : exn) : M A := fun d => (Raise e, d).
Definition bind {A B} (m : M A) (f : A -> M B) : M B :=
  fun d => match m d with
           | (Ok a, d') => f a d'
           | (Raise e, d') => (Raise e, d')
           end.
(** [try: m except: handler] (a bare [except]). *)
Definition try_except {A} (m : M A) (handler : exn -> M A) : M A :=
  fun d => match m d with
           | (Ok a, d') => (Ok a, d')
           | (Raise e, d') => handler e d'
           end.

Notation "x <- m ;; k" := (bind m (fun x => k))
  (at level 61, m at next level, right associativity).

(** A keyword query: a dict of lookups, or a [Q] disjunction of such dicts. *)
Definition lookups := list (string * value).

Definition row_matches (r : row) (q : lookups) : bool :=
  forallb (fun '(k, v) => match assoc k (row_vals r) with
                          | Some v' => value_eqb v v'
                          | None => false
                          end) q.

(** [Model.objects.filter(q1 | q2 | ...)] *)
Definition orm_filter (m : rel_model) (q : list lookups) : M (list row) :=
  fun d =>
    if forallb (fun c => forallb (fun '(k, _) => resolves m k) c) q
    then (Ok (filter (fun r => existsb (row_matches r) q) (d (rm_name m))), d)
    else (Raise FieldError, d).

(** [Model.objects.get(...)] *)
Definition orm_get (m : rel_model) (q : list lookups) : M row :=
  rows <- orm_filter m q ;;
  match rows with
  | [r] => ret r
  | [] => raise DoesNotExist
  | _ => raise MultipleObjectsReturned
  end.

(** [instance.delete()] *)
Definition orm_delete (m : rel_model) (r : row) : M unit :=
  fun d => (Ok tt, db_set d (rm_name m)
                      (filter (fun r' => negb (Nat.eqb (row_pk r') (row_pk r)))
                              (d (rm_name m)))).

Definition max_pk (rows : list row) : nat :=
  fold_right (fun r n => Nat.max (row_pk r) n) 0 rows.

Fixpoint replace_row (p : nat) (vals : list (string * value)) (rows : list row)
    : list row :=
  match rows with
  | [] => []
  | r :: rs => if Nat.eqb (row_pk r) p then mk_row p vals :: replace_row p vals rs
               else r :: replace_row p vals rs
  end.

(** [Model.save_base]: with a pk that exists, an UPDATE; otherwise an INSERT
    (with a fresh auto-increment pk when the instance has none).  With
    [force_insert] an existing pk is an [IntegrityError]. *)
Definition model_save_base (m : rel_model) (force_insert : bool)
    (pk : option nat) (vals : list (string * value)) : M nat :=
  fun d =>
    let rows := d (rm_name m) in
    match pk with
    | Some p =>
        if existsb (fun r => Nat.eqb (row_pk r) p) rows then
          if force_insert then (Raise IntegrityError, d)
          else (Ok p, db_set d (rm_name m) (replace_row p vals rows))
        else (Ok p, db_set d (rm_name m) (rows ++ [mk_row p vals]))
    | None =>
        let p := S (max_pk rows) in
        (Ok p, db_set d (rm_name m) (rows ++ [mk_row p vals]))
    end.

Definition ascii_upper_str (s : string) : string :=
  (fix go s := match s with
               | EmptyString => EmptyString
               | String c s' => String (ascii_upper c) (go s')
               end) s.

(** Python's dict lookup [d[k]] on an association list with distinct keys. *)
Fixpoint dict_get {A} (k : string) (l : list (string * A)) : option A :=
  match l with
  | [] => None
  | (k', a) :: l' => if String.eqb k k' then Some a else dict_get k l'
  end.

(** ** models.py *)

(** A relationship instance with its four endpoint attributes set: side 1
    is [object_1_velcro_type] (difftype) or the [_1] fields (sametype). *)
Record rel_instance := mk_rel_instance {
  ri_pk : option nat;
  ri_ct_1 : content_type;
  ri_pk_1 : nat;
  ri_ct_2 : content_type;
  ri_pk_2 : nat
}.

Definition with_pk (i : rel_instance) (p : option nat) : rel_instance :=
  mk_rel_instance p (ri_ct_1 i) (ri_pk_1 i) (ri_ct_2 i) (ri_pk_2 i).

(** The names of the endpoint fields [(ct_1, pk_1, ct_2, pk_2)]. *)
Definition endpoint_fields (k : rel_kind) : string * string * string * string :=
  match k with
  | DiffType t1 t2 => (t1 ++ "_content_type", t1 ++ "_object_pk",
                       t2 ++ "_content_type", t2 ++ "_object_pk")
  | SameType _ => ("content_type_1", "object_pk_1",
                   "content_type_2", "object_pk_2")
  end.

(** What the limit of a velcro type's content-type foreign keys is meant to
    admit: every content type when the type lists no model, otherwise the
    content types (lower-cased app label, lower-cased model) it lists. *)
Definition limit_admits_listed_spec (v : velcro_type_metadata) (ct : content_type) : Prop :=
  apps v = [] \/
  exists e, In e (apps v) /\ ct_app_label ct = lower (app_label e) /\
            ct_model ct = lower (model e).

Section Models.

Variable VELCRO_METADATA : metadata.
(** [ContentType.name] and [str()] of a content object: user code. *)
Variable ct_name : content_type -> string.
Variable object_str : content_type -> nat -> string.

(** [limit = reduce(operator.or_, queries, models.Q())] *)
Definition limit_for (md : velcro_type_metadata) : ct_q :=
  fold_left q_or
    (map (fun e => QAny [(lower (app_label e), lower (model e))]) (apps md))
    QEmpty.

Definition endpoint_typedict (velcro_type : string) (limit : ct_q)
    : list (string * field) :=
  [(velcro_type ++ "_content_type",
    ForeignKeyContentType limit
      ("%(app_label)s_%(class)s_related_" ++ velcro_type));
   (velcro_type ++ "_object_pk", PositiveIntegerField);
   (velcro_type ++ "_content_object",
    GenericForeignKey (velcro_type ++ "_content_type")
                      (velcro_type ++ "_object_pk"))].

(** [_generate_relationship_model_difftype]: the abstract base and the
    updated typedict ([typedict.update] adds fresh keys: appended). *)
Definition _generate_relationship_model_difftype (relationship : string * string)
    (typedict : list (string * field)) : result (rel_kind * list (string * field)) :=
  let (object_1_velcro_type, object_2_velcro_type) := sorted2 relationship in
  match dict_get (fst relationship) VELCRO_METADATA,
        dict_get (snd relationship) VELCRO_METADATA with
  | Some md1, Some md2 =>
      Ok (DiffType object_1_velcro_type object_2_velcro_type,
          app typedict (app (endpoint_typedict (fst relationship) (limit_for md1))
                            (endpoint_typedict (snd relationship) (limit_for md2))))
  | _, _ => Raise KeyError
  end.

(** [_generate_relationship_model_sametype]: the fields of the abstract base. *)
Definition _generate_relationship_model_sametype (velcro_type : string)
    : result (list (string * field)) :=
  match dict_get velcro_type VELCRO_METADATA with
  | Some md =>
      let limit := limit_for md in
      Ok [("content_type_1",
           ForeignKeyContentType limit "%(app_label)s_%(class)s_related_1");
          ("object_pk_1", PositiveIntegerField);
          ("content_object_1", GenericForeignKey "content_type_1" "object_pk_1");
          ("content_type_2",
           ForeignKeyContentType limit "%(app_label)s_%(class)s_related_2");
          ("object_pk_2", PositiveIntegerField);
          ("content_object_2", GenericForeignKey "content_type_2" "object_pk_2")]
  | None => Raise KeyError
  end.

Definition relationship_class_name (relationship : string * string) : string :=
  let (o1, o2) := sorted2 relationship in
  capitalize o1 ++ capitalize o2 ++ "Relationship".

(** [generate_relationship_model]: the class [type(klass_name,
    (RelationshipBase,), typedict)]; its fields are Django's implicit [id],
    the abstract base's fields, then the typedict's.  Both bases declare
    [Meta.ordering = ['order_by']] and nothing else but [abstract]. *)
Definition generate_relationship_model (relationship : string * string)
    : result rel_model :=
  let (object_1_velcro_type, object_2_velcro_type) := sorted2 relationship in
  let klass_name := relationship_class_name relationship in
  let typedict := [("order_by", CharField 255 true)] in
  if String.eqb object_1_velcro_type object_2_velcro_type then
    match _generate_relationship_model_sametype object_1_velcro_type with
    | Ok base =>
        Ok (mk_rel_model klass_name (SameType object_1_velcro_type)
              (("id", AutoField) :: app base typedict) ["order_by"] [])
    | Raise e => Raise e
    end
  else
    match _generate_relationship_model_difftype relationship typedict with
    | Ok (k, typedict') =>
        Ok (mk_rel_model klass_name k (("id", AutoField) :: typedict')
              ["order_by"] [])
    | Raise e => Raise e
    end.

(** [models._startup]: each generated class is bound in the module's
    [globals()] (newest binding first) and registered with the app. *)
Fixpoint models_startup_loop (rs : relationships)
    (globals : list (string * rel_model)) : result (list (string * rel_model)) :=
  match rs with
  | [] => Ok globals
  | r :: rs' =>
      match generate_relationship_model r with
      | Ok klass => models_startup_loop rs' ((rm_name klass, klass) :: globals)
      | Raise e => Raise e
      end
  end.

Definition models_startup (rs : relationships) :=
  models_startup_loop rs [].

(** [RelationshipBase.__str__] *)
Definition relationship_str (i : rel_instance) : string :=
  ascii_upper_str (ct_name (ri_ct_1 i)) ++ ": " ++ object_str (ri_ct_1 i) (ri_pk_1 i)
  ++ " ⟷  " ++
  ascii_upper_str (ct_name (ri_ct_2 i)) ++ ": " ++ object_str (ri_ct_2 i) (ri_pk_2 i).

Definition instance_vals (k : rel_kind) (i : rel_instance) (order_by : string)
    : list (string * value) :=
  let '(c1, p1, c2, p2) := endpoint_fields k in
  [(c1, VCT (ri_ct_1 i)); (p1, VInt (ri_pk_1 i));
   (c2, VCT (ri_ct_2 i)); (p2, VInt (ri_pk_2 i));
   ("order_by", VStr order_by)].

(** The query of [RelationshipBase.save]: one orientation for differing
    velcro types, both for matching ones. *)
Definition save_query (k : rel_kind) (i : rel_instance) : list lookups :=
  let '(c1, p1, c2, p2) := endpoint_fields k in
  match k with
  | DiffType _ _ =>
      [[(c1, VCT (ri_ct_1 i)); (p1, VInt (ri_pk_1 i));
        (c2, VCT (ri_ct_2 i)); (p2, VInt (ri_pk_2 i))]]
  | SameType _ =>
      [[(c1, VCT (ri_ct_1 i)); (p1, VInt (ri_pk_1 i));
        (c2, VCT (ri_ct_2 i)); (p2, VInt (ri_pk_2 i))];
       [(c1, VCT (ri_ct_2 i)); (p1, VInt (ri_pk_2 i));
        (c2, VCT (ri_ct_1 i)); (p2, VInt (ri_pk_1 i))]]
  end.

Definition is_self_relation (i : rel_instance) : bool :=
  ct_eqb (ri_ct_1 i) (ri_ct_2 i) && Nat.eqb (ri_pk_1 i) (ri_pk_2 i).

(** [RelationshipBase.save] (both bases): a [get] under a bare [except]
    decides whether the pk of an existing record is adopted. *)
Definition relationship_save (m : rel_model) (force_insert : bool)
    (i : rel_instance) : M rel_instance :=
  pk <- try_except (r <- orm_get m (save_query (rm_kind m) i) ;;
                    ret (Some (row_pk r)))
                   (fun _ => ret (ri_pk i)) ;;
  let self := with_pk i pk in
  let order_by := relationship_str self in
  match rm_kind m with
  | DiffType _ _ =>
      p <- model_save_base m force_insert pk (instance_vals (rm_kind m) self order_by) ;;
      ret (with_pk self (Some p))
  | SameType _ =>
      if is_self_relation self then ret self   (* print(...) *)
      else
        p <- model_save_base m force_insert pk (instance_vals (rm_kind m) self order_by) ;;
        ret (with_pk self (Some p))
  end.

End Models.

(** The limit [limit_for v] admits what [limit_admits_listed_spec] describes. *)
Definition limit_admits_listed (v : velcro_type_metadata) : Prop :=
  forall ct, q_admits (limit_for v) ct = true <-> limit_admits_listed_spec v ct.

(** ** utils.py: the ORM-facing helpers *)

Section Queries.

Variable VELCRO_METADATA : metadata.
Variable VELCRO_RELATIONSHIPS : relationships.
(** The app registry of [django_velcro]: the classes [models._startup]
    generated (newest first). *)
Variable registry : list (string * rel_model).
(** [ContentType.model_class()] and [str()] of a model instance: user code. *)
Variable model_class_of : content_type -> model_class.
Variable ct_name : content_type -> string.
Variable object_str : content_type -> nat -> string.

Definition obj_str (o : obj) : string :=
  object_str (get_for_model (obj_class o)) (obj_id o).

(** [apps.get_model(__package__, name)]: model names are matched
    lower-cased; [LookupError] when absent. *)
Definition apps_get_model (name : string) : result rel_model :=
  match find (fun '(_, k) => String.eqb (lower (rm_name k)) (lower name)) registry with
  | Some (_, k) => Ok k
  | None => Raise LookupError
  end.

(** [get_relationship_class]; a [None] velcro type has no [capitalize]. *)
Definition get_relationship_class (t1 t2 : option string) : result rel_model :=
  match t1, t2 with
  | Some t1, Some t2 =>
      let (a, b) := sorted2 (capitalize t1, capitalize t2) in
      apps_get_model (a ++ b ++ "Relationship")
  | _, _ => Raise AttributeError
  end.

Definition lift {A} (r : result A) : M A :=
  match r with Ok a => ret a | Raise e => raise e end.

(** [Model.objects.create] with keyword arguments: [__init__] rejects an unknown keyword
    with [TypeError]; then [save(force_insert=True)]. *)
Definition orm_create (m : rel_model) (params : lookups) : M rel_instance :=
  if forallb (fun '(k, _) => accepts_kwarg m k) params then
    let '(c1, p1, c2, p2) := endpoint_fields (rm_kind m) in
    match assoc c1 params, assoc p1 params, assoc c2 params, assoc p2 params with
    | Some (VCT ct1), Some (VInt n1), Some (VCT ct2), Some (VInt n2) =>
        relationship_save ct_name object_str m true
          (mk_rel_instance None ct1 n1 ct2 n2)
    | _, _, _, _ => raise AttributeError
    end
  else raise TypeError.

(** [get_or_create] with keyword arguments: only [DoesNotExist] leads to [create]. *)
Definition orm_get_or_create (m : rel_model) (kwargs : lookups)
    : M (option nat * bool) :=
  try_except (r <- orm_get m [kwargs] ;; ret (Some (row_pk r), false))
    (fun e => match e with
              | DoesNotExist => i <- orm_create m kwargs ;; ret (ri_pk i, true)
              | _ => raise e
              end).

(** [_relationship_query] *)
Definition _relationship_query (object_1 : obj) (object_1_velcro_type : string)
    (object_2 : obj) (object_2_velcro_type : string) : lookups :=
  [(object_1_velcro_type ++ "_content_type", VCT (get_for_model (obj_class object_1)));
   (object_1_velcro_type ++ "_object_id", VInt (obj_id object_1));
   (object_2_velcro_type ++ "_content_type", VCT (get_for_model (obj_class object_2)));
   (object_2_velcro_type ++ "_object_id", VInt (obj_id object_2))].

Inductive add_or_remove := Add | Remove.

(** [_add_or_remove_related_content_difftype]; [Some (pk, created)] is the
    return value of an [add]. *)
Definition _add_or_remove_related_content_difftype (object_1 object_2 : obj)
    (object_1_velcro_type object_2_velcro_type : option string)
    (mode : add_or_remove) : M (option (option nat * bool)) :=
  relationship_class <- lift (get_relationship_class object_1_velcro_type
                                                      object_2_velcro_type) ;;
  match object_1_velcro_type, object_2_velcro_type with
  | Some t1, Some t2 =>
      let query := _relationship_query object_1 t1 object_2 t2 in
      match mode with
      | Add => res <- orm_get_or_create relationship_class query ;; ret (Some res)
      | Remove => r <- orm_get relationship_class [query] ;;
                  _ <- orm_delete relationship_class r ;; ret None
      end
  | _, _ => raise AttributeError
  end.

Definition sametype_query (object_1 object_2 : obj) : list lookups :=
  [[("content_type_1", VCT (get_for_model (obj_class object_1)));
    ("object_id_1", VInt (obj_id object_1));
    ("content_type_2", VCT (get_for_model (obj_class object_2)));
    ("object_id_2", VInt (obj_id object_2))];
   [("content_type_1", VCT (get_for_model (obj_class object_2)));
    ("object_id_1", VInt (obj_id object_2));
    ("content_type_2", VCT (get_for_model (obj_class object_1)));
    ("object_id_2", VInt (obj_id object_1))]].

(** [_add_or_remove_related_content_sametype] *)
Definition _add_or_remove_related_content_sametype (object_1 object_2 : obj)
    (object_1_velcro_type object_2_velcro_type : option string)
    (mode : add_or_remove) : M (option (option nat * bool)) :=
  if obj_eqb object_1 object_2 then raise ValueError
  else
    relationship_class <- lift (get_relationship_class object_1_velcro_type
                                                        object_2_velcro_type) ;;
    let query := sametype_query object_1 object_2 in
    match mode with
    | Add =>
        res <- try_except
                 (r <- orm_get relationship_class query ;; ret (Some (row_pk r), false))
                 (fun _ =>
                    let params :=
                      [("content_type_1", VCT (get_for_model (obj_class object_1)));
                       ("object_id_1", VInt (obj_id object_1));
                       ("content_type_2", VCT (get_for_model (obj_class object_2)));
                       ("object_id_2", VInt (obj_id object_2))] in
                    i <- orm_create relationship_class params ;; ret (ri_pk i, true)) ;;
        ret (Some res)
    | Remove => r <- orm_get relationship_class query ;;
                _ <- orm_delete relationship_class r ;; ret None
    end.

Definition option_string_eqb (a b : option string) : bool :=
  match a, b with
  | Some x, Some y => String.eqb x y
  | None, None => true
  | _, _ => false
  end.

(** [add_related_content]: the relationship's pk and whether it was created. *)
Definition add_related_content (object_1 object_2 : obj) : M (option (option nat * bool)) :=
  let object_1_velcro_type := get_velcro_type VELCRO_METADATA (obj_class object_1) in
  let object_2_velcro_type := get_velcro_type VELCRO_METADATA (obj_class object_2) in
  if option_string_eqb object_1_velcro_type object_2_velcro_type then
    _add_or_remove_related_content_sametype object_1 object_2
      object_1_velcro_type object_2_velcro_type Add
  else
    _add_or_remove_related_content_difftype object_1 object_2
      object_1_velcro_type object_2_velcro_type Add.

(** [remove_related_content] *)
Definition remove_related_content (object_1 object_2 : obj) : M unit :=
  let object_1_velcro_type := get_velcro_type VELCRO_METADATA (obj_class object_1) in
  let object_2_velcro_type := get_velcro_type VELCRO_METADATA (obj_class object_2) in
  _ <- (if option_string_eqb object_1_velcro_type object_2_velcro_type then
          _add_or_remove_related_content_sametype object_1 object_2
            object_1_velcro_type object_2_velcro_type Remove
        else
          _add_or_remove_related_content_difftype object_1 object_2
            object_1_velcro_type object_2_velcro_type Remove) ;;
  ret tt.

(** [getattr(row, '<prefix>content_object<suffix>')]: the generic foreign
    key of the row, through the fields it combines. *)
Definition content_object (ct_field fk_field : string) (r : row) : result obj :=
  match assoc ct_field (row_vals r), assoc fk_field (row_vals r) with
  | Some (VCT ct), Some (VInt n) => Ok (mk_obj (model_class_of ct) n)
  | _, _ => Raise AttributeError
  end.

Fixpoint map_result {A B} (f : A -> result B) (l : list A) : result (list B) :=
  match l with
  | [] => Ok []
  | x :: l' => match f x, map_result f l' with
               | Ok y, Ok ys => Ok (y :: ys)
               | Raise e, _ => Raise e
               | _, Raise e => Raise e
               end
  end.

(** [qs[:limit]] *)
Definition take_limit {A} (limit : option nat) (l : list A) : list A :=
  match limit with Some n => firstn n l | None => l end.

(** [_get_related_content_difftype] *)
Definition _get_related_content_difftype (object : obj) (velcro_type related_type : string)
    (content_type : content_type) (relationship_class : rel_model)
    (limit : option nat) : M (list obj) :=
  let query := [(velcro_type ++ "_object_id", VInt (obj_id object));
                (velcro_type ++ "_content_type", VCT content_type)] in
  relationships <- orm_filter relationship_class [query] ;;
  related <- lift (map_result
                     (content_object (related_type ++ "_content_type")
                                     (related_type ++ "_object_pk"))
                     (take_limit limit relationships)) ;;
  ret (sorted_by (fun x y =>
         pair_leb (lower (mc_object_name (obj_class x)), lower (obj_str x))
                  (lower (mc_object_name (obj_class y)), lower (obj_str y)))
       related).

(** [_get_related_content_sametype] *)
Definition _get_related_content_sametype (object : obj) (related_type : string)
    (content_type : content_type) (relationship_class : rel_model)
    (limit : option nat) : M (list obj) :=
  let query := [[("content_type_1", VCT content_type); ("object_id_1", VInt (obj_id object))];
                [("content_type_2", VCT content_type); ("object_id_2", VInt (obj_id object))]] in
  relationships <- orm_filter relationship_class query ;;
  pairs <- lift (map_result
                   (fun r => match content_object "content_type_1" "object_pk_1" r,
                                   content_object "content_type_2" "object_pk_2" r with
                             | Ok a, Ok b => Ok (a, b)
                             | Raise e, _ => Raise e
                             | _, Raise e => Raise e
                             end)
                   (take_limit limit relationships)) ;;
  related_content <- lift (map_result
                     (fun '(a, b) => if obj_eqb a object then Ok b
                                     else if obj_eqb b object then Ok a
                                     else Raise ValueError)
                     pairs) ;;
  ret (sorted_by (fun x y =>
         pair_leb (lower (mc_object_name (obj_class x)), obj_str x)
                  (lower (mc_object_name (obj_class y)), obj_str y))
       related_content).

Fixpoint dict_set {A} (k : string) (a : A) (l : list (string * A)) : list (string * A) :=
  match l with
  | [] => [(k, a)]
  | (k', a') :: l' => if String.eqb k k' then (k, a) :: l' else (k', a') :: dict_set k a l'
  end.

Fixpoint related_content_loop (object : obj) (velcro_type : string)
    (rts : list string) (limit : option nat) (acc : list (string * list obj))
    : M (list (string * list obj)) :=
  match rts with
  | [] => ret acc
  | rt :: rts' =>
      relationship_class <- lift (get_relationship_class (Some velcro_type) (Some rt)) ;;
      let content_type := get_for_model (obj_class object) in
      content <- (if String.eqb velcro_type rt then
                    _get_related_content_sametype object rt content_type
                      relationship_class limit
                  else
                    _get_related_content_difftype object velcro_type rt content_type
                      relationship_class limit) ;;
      related_content_loop object velcro_type rts' limit (dict_set rt content acc)
  end.

(** [get_related_content(object, *related_types, limit=limit)] with
    [grouped=True], [verbose=False] and [velcro_type] looked up.  With no
    velcro type ([None]) the related types are empty (every tuple holds
    strings), so the result is the empty dict. *)
Definition get_related_content (object : obj) (related_types : list string)
    (limit : option nat) : M (list (string * list obj)) :=
  match get_velcro_type VELCRO_METADATA (obj_class object) with
  | None => ret []
  | Some velcro_type =>
      let rts := fst (get_or_validate_related_types VELCRO_METADATA
                        VELCRO_RELATIONSHIPS velcro_type (Some related_types)) in
      related_content <- related_content_loop object velcro_type rts limit [] ;;
      ret (sorted_by (key_leb (fun '(k, _) => lower k)) related_content)
  end.

End Queries.

(** ** admin.py *)

(** A generated inline class (the attributes used below). *)
Record inline := mk_inline {
  in_name : string;
  in_model : string;
  in_ct_field : string;
  in_ct_fk_field : string;
  in_fields : list string
}.

(** A model-admin class: its name, bases, [inlines], [readonly_fields]. *)
Record admin_class := mk_admin_class {
  adm_name : string;
  adm_bases : list string;
  adm_inlines : list string;
  adm_readonly : list string
}.

(** Keys of [admin.site._registry]: a generated relationship model (by
    class name) or an installed third-party model. *)
Inductive model_key :=
| RelKey (name : string)
| AppKey (c : model_class).

Definition model_key_eqb (a b : model_key) : bool :=
  match a, b with
  | RelKey x, RelKey y => String.eqb x y
  | AppKey x, AppKey y => String.eqb (mc_app_label x) (mc_app_label y) &&
                          String.eqb (mc_object_name x) (mc_object_name y)
  | _, _ => false
  end.

(** The state the admin start-up works on: the module globals holding the
    imported relationship classes and the generated inline classes, and the
    admin site's registry. *)
Record admin_state := mk_admin_state {
  st_models : list (string * rel_model);
  st_inlines : list (string * inline);
  st_registry : list (model_key * admin_class)
}.

Fixpoint registry_get (k : model_key) (reg : list (model_key * admin_class))
    : option admin_class :=
  match reg with
  | [] => None
  | (k', a) :: reg' => if model_key_eqb k k' then Some a else registry_get k reg'
  end.

Definition registry_unregister (k : model_key) (reg : list (model_key * admin_class)) :=
  filter (fun '(k', _) => negb (model_key_eqb k k')) reg.

Section Admin.

Variable VELCRO_METADATA : metadata.
Variable VELCRO_RELATIONSHIPS : relationships.
Variable VELCRO_INLINES : bool.
(** [VELCRO_GENERICADMIN]: imported by admin.py from the package settings
    (the [settings.py] under src does not define it); any value. *)
Variable VELCRO_GENERICADMIN : bool.
Variable VELCRO_INLINES_EXTRA : nat.
(** The app registry of [django_velcro] (generated classes) and the models
    of the installed apps. *)
Variable registry : list (string * rel_model).
Variable installed_models : list model_class.

Definition S := admin_state -> result admin_state.

(** [apps.get_model(app_name, model_name)] for third-party apps. *)
Definition apps_get_installed_model (app_name model_name : string) : result model_class :=
  match find (fun c => String.eqb (mc_app_label c) app_name &&
                       String.eqb (lower (mc_object_name c)) (lower model_name))
             installed_models with
  | Some c => Ok c
  | None => Raise LookupError
  end.

(** [import_relationship_model] *)
Definition import_relationship_model (relationship : string * string) : S :=
  fun st =>
    let name := relationship_class_name relationship in
    match apps_get_model registry name with
    | Ok k => Ok (mk_admin_state ((name, k) :: st_models st) (st_inlines st)
                                 (st_registry st))
    | Raise e => Raise e
    end.

Definition sorted2_reverse (r : string * string) : string * string :=
  let (a, b) := sorted2 r in (b, a).

(** [generate_inline_model] (the attributes relevant here; [model] is
    looked up by [eval] in the module globals, [NameError] modelled as
    [KeyError], as are missing metadata keys). *)
Definition generate_inline_model (relationship : string * string) (reverse : bool) : S :=
  fun st =>
    let '(object_1_velcro_type, object_2_velcro_type) :=
      if reverse then sorted2_reverse relationship else sorted2 relationship in
    let model_name := (let (a, b) := sorted2 (capitalize (fst relationship),
                                               capitalize (snd relationship))
                       in a ++ b ++ "Relationship") in
    match dict_get model_name (st_models st),
          dict_get object_2_velcro_type VELCRO_METADATA with
    | Some k, Some _ =>
        let '(klass_name, ct_field, ct_fk_field, fields) :=
          if String.eqb object_1_velcro_type object_2_velcro_type then
            if reverse then
              (capitalize object_1_velcro_type ++ "To" ++
               capitalize object_2_velcro_type ++ "RelationshipReverseInline",
               "content_type_2", "object_id_2", ["content_type_1"; "object_id_1"])
            else
              (capitalize object_1_velcro_type ++ "To" ++
               capitalize object_2_velcro_type ++ "RelationshipInline",
               "content_type_1", "object_id_1", ["content_type_2"; "object_id_2"])
          else
            (capitalize object_1_velcro_type ++ "To" ++
             capitalize object_2_velcro_type ++ "RelationshipInline",
             object_1_velcro_type ++ "_content_type",
             object_1_velcro_type ++ "_object_id",
             [object_2_velcro_type ++ "_content_type";
              object_2_velcro_type ++ "_object_id"]) in
        Ok (mk_admin_state (st_models st)
              ((klass_name, mk_inline klass_name (rm_name k) ct_field ct_fk_field fields)
                 :: st_inlines st)
              (st_registry st))
    | _, _ => Raise KeyError
    end.

(** [admin.site.register(model, klass)] *)
Definition admin_register (k : model_key) (a : admin_class) : S :=
  fun st =>
    match registry_get k (st_registry st) with
    | Some _ => Raise AlreadyRegistered
    | None => Ok (mk_admin_state (st_models st) (st_inlines st)
                                 ((k, a) :: st_registry st))
    end.

(** [generate_and_register_admin_model] *)
Definition generate_and_register_admin_model (relationship : string * string) : S :=
  fun st =>
    let model_name := relationship_class_name relationship in
    let klass_name := model_name ++ "Admin" in
    let klass := mk_admin_class klass_name ["GenericAdminModelAdmin"] [] ["order_by"] in
    match dict_get model_name (st_models st) with
    | Some k => admin_register (RelKey (rm_name k)) klass st
    | None => Raise KeyError
    end.

(** [get_relationship_inlines(velcro_type)]: the inline class names,
    fetched from the admin module ([AttributeError] when missing). *)
Definition inline_names_for (velcro_type related : string) : list string :=
  (capitalize velcro_type ++ "To" ++ capitalize related ++ "RelationshipInline")
  :: (if String.eqb velcro_type related
      then [capitalize velcro_type ++ "To" ++ capitalize related
            ++ "RelationshipReverseInline"]
      else []).

Definition get_relationship_inlines (inlines : list (string * inline))
    (velcro_type : string) : result (list string) :=
  let names := flat_map (inline_names_for velcro_type)
                 (fst (get_or_validate_related_types VELCRO_METADATA
                         VELCRO_RELATIONSHIPS velcro_type None)) in
  if forallb (fun n => match dict_get n inlines with Some _ => true | None => false end) names
  then Ok names else Raise AttributeError.

(** [add_velcro_to_third_party_admin] *)
Definition add_velcro_to_third_party_admin (app_name model_name velcro_type : string) : S :=
  fun st =>
    match apps_get_installed_model app_name model_name with
    | Raise e => Raise e
    | Ok c =>
        match registry_get (AppKey c) (st_registry st) with
        | None => Raise KeyError
        | Some orig =>
            let bases := if VELCRO_GENERICADMIN
                         then ["GenericAdminModelAdmin"; adm_name orig]
                         else [adm_name orig] in
            let inlines_r :=
              if VELCRO_INLINES then
                match get_relationship_inlines (st_inlines st) velcro_type with
                | Ok rel => Ok (app (adm_inlines orig) rel)
                | Raise e => Raise e
                end
              else Ok (adm_inlines orig) in
            match inlines_r with
            | Raise e => Raise e
            | Ok inlines =>
                let updated := mk_admin_class (adm_name orig) bases inlines
                                              (adm_readonly orig) in
                Ok (mk_admin_state (st_models st) (st_inlines st)
                      ((AppKey c, updated) :: registry_unregister (AppKey c) (st_registry st)))
            end
        end
    end.

Definition seqS (a b : S) : S :=
  fun st => match a st with Ok st' => b st' | Raise e => Raise e end.

Fixpoint relationships_startup (rs : relationships) : S :=
  match rs with
  | [] => fun st => Ok st
  | r :: rs' =>
      seqS (import_relationship_model r)
        (seqS (if VELCRO_INLINES
               then seqS (generate_inline_model r false) (generate_inline_model r true)
               else fun st => Ok st)
          (seqS (generate_and_register_admin_model r) (relationships_startup rs')))
  end.

Fixpoint third_party_startup (items : metadata) : S :=
  match items with
  | [] => fun st => Ok st
  | (velcro_type, md) :: items' =>
      seqS (fold_right (fun e k => seqS (add_velcro_to_third_party_admin
                                           (app_label e) (model e) velcro_type) k)
                       (fun st => Ok st) (apps md))
           (third_party_startup items')
  end.

(** [admin._startup] *)
Definition admin_startup : S :=
  seqS (relationships_startup VELCRO_RELATIONSHIPS)
       (third_party_startup VELCRO_METADATA).

End Admin.

(** The names [settings.py] binds: [settings] and its [getattr] defaults. *)
Definition settings_module_names : list string :=
  ["settings"; "VELCRO_INLINES"; "VELCRO_INLINES_EXTRA"; "VELCRO_INLINES_MAX_NUM";
   "VELCRO_INLINES_TABULAR"; "VELCRO_METADATA"; "VELCRO_METHODS";
   "VELCRO_RELATIONSHIPS"].

(** [from module import (names)]: a name the module does not bind raises
    [ImportError]. *)
Definition from_import (module_names names : list string) : result unit :=
  if forallb (fun n => mem n module_names) names then Ok tt else Raise ImportError.

(** The names admin.py imports from [.settings]. *)
Definition admin_settings_imports : list string :=
  ["VELCRO_GENERICADMIN"; "VELCRO_INLINES"; "VELCRO_INLINES_EXTRA";
   "VELCRO_INLINES_MAX_NUM"; "VELCRO_INLINES_TABULAR"; "VELCRO_METADATA";
   "VELCRO_RELATIONSHIPS"].

(** Importing admin.py: its [.settings] import, then the module-level
    [_startup()] (run with the value [VELCRO_GENERICADMIN] would have). *)
Definition admin_module (md : metadata) (rels : relationships) (inlines generic : bool)
    (registry : list (string * rel_model)) (installed : list model_class) : S :=
  fun st =>
    match from_import settings_module_names admin_settings_imports with
    | Ok _ => admin_startup md rels inlines generic registry installed st
    | Raise e => Raise e
    end.

(** ** utils.py: the remaining helpers *)

(** [_find_dict_in_list(list_, key, value)]: the first dict whose [key]
    holds [value]; [None] stands for the [[]] returned when there is none.
    The [key] is given by its accessor on the [apps] entries. *)
Fixpoint _find_dict_in_list (list_ : list app_entry) (key : app_entry -> string)
    (value : string) : option app_entry :=
  match list_ with
  | [] => None
  | d :: l => if String.eqb (key d) value then Some d else _find_dict_in_list l key value
  end.

Section Urls.

Variable VELCRO_METADATA : metadata.
(** Django's [reverse(view, args=...)] and [getattr(object, arg)]. *)
Variable reverse : string -> list string -> result string.
Variable getattr_obj : obj -> string -> result string.

(** [get_url_of_object(object, velcro_type)].  [VELCRO_METADATA[None]] is a
    [KeyError]; indexing the [[]] of a missed [_find_dict_in_list] with
    ['view'] is a [TypeError]. *)
Definition get_url_of_object (object : obj) (velcro_type : option string) : result string :=
  let velcro_type := match velcro_type with
                     | None => get_velcro_type VELCRO_METADATA (obj_class object)
                     | Some t => Some t
                     end in
  match velcro_type with
  | None => Raise KeyError
  | Some t =>
      match dict_get t VELCRO_METADATA with
      | None => Raise KeyError
      | Some v =>
          match _find_dict_in_list (apps v) model (mc_object_name (obj_class object)) with
          | None => Raise TypeError
          | Some model_metadata =>
              match map_result (getattr_obj object) (url_args model_metadata) with
              | Ok args => reverse (view model_metadata) args
              | Raise e => Raise e
              end
          end
      end
  end.

End Urls.

(** [has_related_content(object, *related_types)]: [get_related_content]
    with [limit=1], then whether some related type has objects. *)
Definition has_related_content (md : metadata) (rels : relationships)
    (registry : list (string * rel_model)) (model_class_of : content_type -> model_class)
    (object_str : content_type -> nat -> string) (object : obj)
    (related_types : list string) : M bool :=
  related_content <- get_related_content md rels registry model_class_of object_str
                       object related_types (Some 1) ;;
  ret (existsb (fun '(_, related_objects) =>
                  match related_objects with [] => false | _ :: _ => true end)
               related_content).

(** [get_related_content(object, *related_types, limit=limit,
    velcro_type=velcro_type)]: the velcro type is looked up only when it is
    [None]. *)
Definition get_related_content_typed (md : metadata) (rels : relationships)
    (registry : list (string * rel_model)) (model_class_of : content_type -> model_class)
    (object_str : content_type -> nat -> string) (object : obj)
    (related_types : list string) (limit : option nat) (velcro_type : option string)
    : M (list (string * list obj)) :=
  match match velcro_type with
        | Some t => Some t
        | None => get_velcro_type md (obj_class object)
        end with
  | None => ret []
  | Some velcro_type =>
      let rts := fst (get_or_validate_related_types md rels velcro_type
                        (Some related_types)) in
      related_content <- related_content_loop registry model_class_of object_str object
                           velcro_type rts limit [] ;;
      ret (sorted_by (key_leb (fun '(k, _) => lower k)) related_content)
  end.

Section Sametype.

Variable VELCRO_METADATA : metadata.
Variable VELCRO_RELATIONSHIPS : relationships.
Variable registry : list (string * rel_model).
Variable model_class_of : content_type -> model_class.
Variable object_str : content_type -> nat -> string.
(** [list(set(l))]: the order Python's [set] yields is not specified. *)
Variable set_list : list obj -> list obj.

(** [for r in related_objects: l.extend(get_related_content(r, velcro_type,
    velcro_type=related_type)[velcro_type])] *)
Fixpoint sametype_extend (velcro_type related_type : string) (related_objects : list obj)
    (acc : list obj) : M (list obj) :=
  match related_objects with
  | [] => ret acc
  | r :: rs =>
      content <- get_related_content_typed VELCRO_METADATA VELCRO_RELATIONSHIPS registry
                   model_class_of object_str r [velcro_type] None (Some related_type) ;;
      match dict_get velcro_type content with
      | Some l => sametype_extend velcro_type related_type rs (app acc l)
      | None => raise KeyError
      end
  end.

Fixpoint sametype_collect (velcro_type : string) (items : list (string * list obj))
    (acc : list obj) : M (list obj) :=
  match items with
  | [] => ret acc
  | (related_type, related_objects) :: items' =>
      acc' <- sametype_extend velcro_type related_type related_objects acc ;;
      sametype_collect velcro_type items' acc'
  end.

(** [list.remove(x)]: the first element equal to [x]; [None] for the
    [ValueError] when there is none. *)
Fixpoint list_remove (x : obj) (l : list obj) : option (list obj) :=
  match l with
  | [] => None
  | y :: l' => if obj_eqb y x then Some l'
               else match list_remove x l' with Some l'' => Some (y :: l'') | None => None end
  end.

(** [get_related_content_sametype(object, *related_types, velcro_type)] *)
Definition get_related_content_sametype (object : obj) (related_types : list string)
    (velcro_type : option string) : M (list obj) :=
  match match velcro_type with
        | Some t => Some t
        | None => get_velcro_type VELCRO_METADATA (obj_class object)
        end with
  | None => ret []
  | Some velcro_type =>
      let rts := fst (get_or_validate_related_types VELCRO_METADATA VELCRO_RELATIONSHIPS
                        velcro_type (Some related_types)) in
      related_content <- get_related_content_typed VELCRO_METADATA VELCRO_RELATIONSHIPS
                           registry model_class_of object_str object rts None
                           (Some velcro_type) ;;
      collected <- sametype_collect velcro_type related_content [] ;;
      let related_content_sametype := set_list collected in
      result <- (match related_content_sametype with
                 | [] => ret []
                 | _ :: _ => match list_remove object related_content_sametype with
                             | Some l => ret l
                             | None => raise ValueError
                             end
                 end) ;;
      ret (sorted_by (fun x y =>
             pair_leb (lower (mc_object_name (obj_class x)), lower (obj_str object_str x))
                      (lower (mc_object_name (obj_class y)), lower (obj_str object_str y)))
           result)
  end.

End Sametype.

(** The methods [utils._startup] attaches to the velcro models; the
    per-related-type ones keep their [related_type] as a default argument. *)
Inductive velcro_method :=
| AddVelcroContent
| GetVelcroContent
| GetVelcroContentSametype
| RemoveVelcroContent
| VelcroUrl
| GetVelcroContentFor (related_type : string)
| GetVelcroContentSametypeFor (related_type : string).

(** Class attributes set by [setattr]: newest binding first. *)
Definition attrs := list ((model_class * string) * velcro_method).

Definition model_class_eqb (a b : model_class) : bool :=
  String.eqb (mc_app_label a) (mc_app_label b) &&
  String.eqb (mc_object_name a) (mc_object_name b).

Fixpoint getattr (c : model_class) (name : string) (a : attrs) : option velcro_method :=
  match a with
  | [] => None
  | ((c', n), m) :: a' =>
      if model_class_eqb c c' && String.eqb name n then Some m else getattr c name a'
  end.

Definition setattr (c : model_class) (name : string) (m : velcro_method) (a : attrs) : attrs :=
  ((c, name), m) :: a.

(** The attributes set on one model of velcro type [t]. *)
Definition velcro_methods_for (rels : relationships) (t : string)
    : list (string * velcro_method) :=
  [("add_velcro_content", AddVelcroContent);
   ("get_velcro_content", GetVelcroContent);
   ("get_velcro_content_sametype", GetVelcroContentSametype);
   ("remove_velcro_content", RemoveVelcroContent);
   ("velcro_url", VelcroUrl)] ++
  flat_map (fun related_type =>
              [("get_velcro_" ++ related_type ++ "_content",
                GetVelcroContentFor related_type);
               ("get_velcro_" ++ related_type ++ "_content_sametype",
                GetVelcroContentSametypeFor related_type)])
           (get_related_types rels t).

Definition setattrs (c : model_class) (l : list (string * velcro_method)) (a : attrs) : attrs :=
  fold_left (fun a '(n, m) => setattr c n m a) l a.

(** [utils._startup]; [apps.get_model] raises [LookupError] for a model
    that is not installed. *)
Fixpoint utils_startup_loop (rels : relationships) (installed : list model_class)
    (items : metadata) (a : attrs) : result attrs :=
  match items with
  | [] => Ok a
  | (velcro_type, md) :: items' =>
      match fold_left (fun r e =>
                         match r with
                         | Raise err => Raise err
                         | Ok a =>
                             match apps_get_installed_model installed (app_label e) (model e) with
                             | Ok c => Ok (setattrs c (velcro_methods_for rels velcro_type) a)
                             | Raise err => Raise err
                             end
                         end) (apps md) (Ok a) with
      | Ok a' => utils_startup_loop rels installed items' a'
      | Raise err => Raise err
      end
  end.

Definition utils_startup (VELCRO_METHODS : bool) (md : metadata) (rels : relationships)
    (installed : list model_class) (a : attrs) : result attrs :=
  if negb VELCRO_METHODS then Ok a else utils_startup_loop rels installed md a.

(** ** Spec-side definitions *)

(** Duplicates removed, first occurrences kept in order (the spec's words,
    written independently of [validate_related_types]). *)
Fixpoint dedup_first (l : list string) : list string :=
  match l with
  | [] => []
  | x :: xs => x :: remove string_dec x (dedup_first xs)
  end.

(** The other member of every tuple containing [t]. *)
Definition related_types_spec (rels : relationships) (t : string) : list string :=
  map (rel_other t) (filter (rel_contains t) rels).

(** A table satisfies a model's [unique_together] when no two rows with
    distinct pks agree on every field of some constraint. *)
Definition agree_on (fields : list string) (r1 r2 : row) : bool :=
  forallb (fun f => match assoc f (row_vals r1), assoc f (row_vals r2) with
                    | Some v1, Some v2 => value_eqb v1 v2
                    | _, _ => false
                    end) fields.

Definition satisfies_unique_together (m : rel_model) (rows : list row) : bool :=
  forallb (fun fields =>
             forallb (fun r1 => forallb (fun r2 =>
                        Nat.eqb (row_pk r1) (row_pk r2) || negb (agree_on fields r1 r2))
                      rows) rows)
          (rm_unique_together m).

(** ** Concrete configuration used by the witnesses *)

Definition entry (a m : string) : app_entry := mk_app_entry a m "" ["pk"].

Definition md_ex : metadata :=
  [("publication", mk_velcro_type_metadata [entry "publication" "Publication"]);
   ("data", mk_velcro_type_metadata [entry "data" "Data"; entry "data" "DataSet"])].

Definition rels_ex : relationships :=
  [("data", "publication"); ("publication", "publication")].

Definition registry_ex : list (string * rel_model) :=
  match models_startup md_ex rels_ex with Ok g => g | Raise _ => [] end.

Definition data_cls := mk_model_class "data" "Data".
Definition dataset_cls := mk_model_class "data" "DataSet".
Definition pub_cls := mk_model_class "publication" "Publication".
Definition installed_ex := [data_cls; dataset_cls; pub_cls].

Definition admin_state_ex : admin_state :=
  mk_admin_state [] []
    [(AppKey data_cls, mk_admin_class "DataAdmin" ["ModelAdmin"] [] []);
     (AppKey dataset_cls, mk_admin_class "DataSetAdmin" ["ModelAdmin"] [] []);
     (AppKey pub_cls, mk_admin_class "PublicationAdmin" ["ModelAdmin"] [] [])].

Definition empty_db : db := fun _ => [].
Definition ct_name_ex (ct : content_type) : string := ct_model ct.
Definition object_str_ex (ct : content_type) (n : nat) : string := ct_model ct.
Definition model_class_of_ex (ct : content_type) : model_class :=
  mk_model_class (ct_app_label ct) (ct_model ct).

(** * Proofs *)

(** ** Strings *)

Lemma string_compare_refl (s : string) : String.compare s s = Eq.
Proof.
  induction s as [|c s IH]; simpl; [reflexivity|].
  unfold Ascii.compare. rewrite N.compare_refl. exact IH.
Qed.

Lemma string_leb_refl (s : string) : String.leb s s = true.
Proof. unfold String.leb. now rewrite string_compare_refl. Qed.

Lemma string_leb_trans (a b c : string) :
  String.leb a b = true -> String.leb b c = true -> String.leb a c = true.
Proof.
  unfold String.leb.
  revert b c. induction a as [|x a IH]; intros [|y b] [|z c]; simpl;
    try discriminate; try reflexivity; auto.
  unfold Ascii.compare.
  destruct (N.compare_spec (N_of_ascii x) (N_of_ascii y)) as [H1|H1|H1];
  destruct (N.compare_spec (N_of_ascii y) (N_of_ascii z)) as [H2|H2|H2];
  destruct (N.compare_spec (N_of_ascii x) (N_of_ascii z)) as [H3|H3|H3];
  intros Hab Hbc; try discriminate; try reflexivity; try lia.
  apply (IH b c); assumption.
Qed.

Lemma string_leb_total_false (a b : string) :
  String.leb a b = false -> String.leb b a = true.
Proof. intros H. destruct (String.leb_total a b); congruence. Qed.

Lemma string_length_append (s t : string) :
  String.length (s ++ t) = String.length s + String.length t.
Proof. induction s; simpl; auto. Qed.

Lemma string_append_assoc (a b c : string) : a ++ (b ++ c) = (a ++ b) ++ c.
Proof. induction a; simpl; congruence. Qed.

(** Two strings with suffixes of equal length are equal only if the
    suffixes are. *)
Lemma string_suffix_eq (s1 s2 x y : string) :
  String.length x = String.length y -> s1 ++ x = s2 ++ y -> x = y.
Proof.
  revert s2. induction s1 as [|c s1 IH]; intros [|c' s2] Hlen H; simpl in H.
  - exact H.
  - subst x. simpl in Hlen. rewrite string_length_append in Hlen. lia.
  - subst y. simpl in Hlen. rewrite string_length_append in Hlen. lia.
  - injection H as _ H. exact (IH s2 Hlen H).
Qed.

Lemma string_suffix_neq (s1 s2 a b x y : string) :
  String.length x = String.length y -> x <> y ->
  s1 ++ (a ++ x) <> s2 ++ (b ++ y).
Proof.
  intros Hlen Hne H. rewrite !string_append_assoc in H.
  exact (Hne (string_suffix_eq _ _ _ _ Hlen H)).
Qed.

(** ** Python's [sorted] *)

Section Sorting.

Context {A : Type} (le : A -> A -> bool).
Hypothesis le_total : forall a b, le a b = false -> le b a = true.

Lemma insert_by_perm (x : A) (l : list A) : Permutation (insert_by le x l) (x :: l).
Proof.
  induction l as [|y l IH]; simpl; [auto|].
  destruct (le x y); [auto|].
  rewrite IH. apply perm_swap.
Qed.

Lemma sorted_by_perm (l : list A) : Permutation (sorted_by le l) l.
Proof.
  induction l as [|x l IH]; simpl; [auto|].
  rewrite insert_by_perm. auto.
Qed.

Lemma insert_by_sorted (x : A) (l : list A) :
  Sorted (fun a b => le a b = true) l ->
  Sorted (fun a b => le a b = true) (insert_by le x l).
Proof.
  induction 1 as [|y l Hs IH Hhd]; simpl; [auto|].
  destruct (le x y) eqn:Hxy; [auto|].
  constructor; [exact IH|].
  destruct l as [|z l]; simpl; [constructor; apply le_total; exact Hxy|].
  destruct (le x z); constructor; [apply le_total; exact Hxy|].
  now inversion Hhd.
Qed.

Lemma sorted_by_sorted (l : list A) :
  Sorted (fun a b => le a b = true) (sorted_by le l).
Proof.
  induction l; simpl; [constructor|]. now apply insert_by_sorted.
Qed.

End Sorting.

Lemma key_leb_total {A} (key : A -> string) (a b : A) :
  key_leb key a b = false -> key_leb key b a = true.
Proof. unfold key_leb. apply string_leb_total_false. Qed.

Lemma sorted_by_key_strongly {A} (key : A -> string) (l : list A) :
  StronglySorted (fun a b => String.leb (key a) (key b) = true)
                 (sorted_by (key_leb key) l).
Proof.
  apply Sorted_StronglySorted.
  - intros a b c H1 H2. eapply string_leb_trans; eauto.
  - apply (sorted_by_sorted (key_leb key) (key_leb_total key)).
Qed.

(** ** Related types *)

Lemma mem_In (x : string) (l : list string) : mem x l = true <-> In x l.
Proof.
  unfold mem. rewrite existsb_exists. split.
  - intros [y [Hy Heq]]. apply String.eqb_eq in Heq. now subst.
  - intros H. exists x. split; [exact H|apply String.eqb_refl].
Qed.

Lemma related_types_loop_spec (t : string) (rels : relationships) :
  related_types_loop t rels = related_types_spec rels t.
Proof.
  unfold related_types_spec. induction rels as [|r rels IH]; simpl; [auto|].
  destruct (rel_contains t r); simpl; congruence.
Qed.

Lemma get_related_types_perm rels t :
  Permutation (get_related_types rels t) (related_types_spec rels t).
Proof.
  unfold get_related_types, sorted_strings. rewrite <- related_types_loop_spec.
  apply sorted_by_perm.
Qed.

Lemma filter_not_mem_remove (v : list string) (x : string) (D : list string) :
  mem x v = true ->
  filter (fun y => negb (mem y v)) (remove string_dec x D) =
  filter (fun y => negb (mem y v)) D.
Proof.
  intros Hx. induction D as [|y D IH]; simpl; [reflexivity|].
  destruct (string_dec x y) as [<-|Hne]; simpl.
  - rewrite Hx. simpl. exact IH.
  - destruct (negb (mem y v)); [f_equal|]; exact IH.
Qed.

Lemma filter_not_mem_snoc (v : list string) (x : string) (D : list string) :
  filter (fun y => negb (mem y (app v [x]))) D =
  filter (fun y => negb (mem y v)) (remove string_dec x D).
Proof.
  induction D as [|y D IH]; simpl; [reflexivity|].
  unfold mem at 1. rewrite existsb_app. simpl.
  destruct (string_dec x y) as [<-|Hne].
  - rewrite String.eqb_refl, orb_true_r. simpl. exact IH.
  - assert (Hyx : String.eqb y x = false) by (apply String.eqb_neq; congruence).
    rewrite Hyx. simpl. rewrite orb_false_r. fold (mem y v).
    destruct (negb (mem y v)); [f_equal|]; exact IH.
Qed.

Lemma validate_loop_result md t all L valid errors :
  fst (validate_loop md t all L valid errors) =
  app valid (filter (fun y => negb (mem y valid))
               (dedup_first (filter (fun y => is_valid_velcro_type md y && mem y all) L))).
Proof.
  revert valid errors. induction L as [|rt L IH]; intros valid errors; simpl.
  - rewrite app_nil_r. reflexivity.
  - destruct (is_valid_velcro_type md rt) eqn:Hv; simpl; [|apply IH].
    destruct (mem rt all) eqn:Ha; simpl; [|apply IH].
    destruct (mem rt valid) eqn:Hd; simpl.
    + rewrite IH. now rewrite filter_not_mem_remove.
    + rewrite IH. rewrite <- app_assoc. simpl.
      now rewrite filter_not_mem_snoc.
Qed.

Lemma validate_loop_length md t all L valid errors :
  length (fst (validate_loop md t all L valid errors)) +
  length (snd (validate_loop md t all L valid errors)) =
  length L + length valid + length errors.
Proof.
  revert valid errors. induction L as [|rt L IH]; intros valid errors; simpl; [lia|].
  destruct (negb (is_valid_velcro_type md rt)); [rewrite IH, length_app; simpl; lia|].
  destruct (negb (mem rt all)); [rewrite IH, length_app; simpl; lia|].
  destruct (mem rt valid); rewrite IH, length_app; simpl; lia.
Qed.

Lemma filter_true {X} (l : list X) : filter (fun _ => true) l = l.
Proof. induction l; simpl; congruence. Qed.

Lemma filter_ext_in {X} (f g : X -> bool) (l : list X) :
  (forall x, In x l -> f x = g x) -> filter f l = filter g l.
Proof.
  induction l as [|x l IH]; simpl; intros H; [auto|].
  rewrite (H x (or_introl eq_refl)). rewrite IH; auto.
Qed.

(** C10 *)
(** Claim C10: with no related types given, [get_or_validate_related_types]
    returns (without warnings) the other member of every relationship tuple
    containing the velcro type, in sorted order; given a non-empty list it
    returns exactly the entries that are valid velcro types and related
    types of the velcro type, duplicates removed with first occurrences kept
    in order; every other entry only yields a warning (the function is
    total: one warning per rejected entry, no exception). *)
Theorem get_or_validate_related_types_spec (md : metadata) (rels : relationships)
    (t x : string) (L : list string) :
  (snd (get_or_validate_related_types md rels t None) = [] /\
   Sorted (fun a b => String.leb a b = true)
          (fst (get_or_validate_related_types md rels t None)) /\
   Permutation (fst (get_or_validate_related_types md rels t None))
               (related_types_spec rels t)) /\
  (fst (get_or_validate_related_types md rels t (Some (x :: L))) =
   dedup_first (filter (fun y => mem y (map fst md) &&
                                 mem y (related_types_spec rels t)) (x :: L)) /\
   length (fst (get_or_validate_related_types md rels t (Some (x :: L)))) +
   length (snd (get_or_validate_related_types md rels t (Some (x :: L)))) =
   length (x :: L)).
Proof.
  split; [split; [reflexivity|split]|split].
  - simpl. unfold get_related_types, sorted_strings.
    apply (sorted_by_sorted String.leb string_leb_total_false).
  - simpl. apply get_related_types_perm.
  - simpl get_or_validate_related_types. unfold validate_related_types.
    rewrite validate_loop_result, app_nil_l.
    rewrite (filter_ext_in (fun y => negb (mem y [])) (fun _ => true)) by reflexivity.
    rewrite filter_true. f_equal. apply filter_ext_in. intros y _.
    unfold is_valid_velcro_type. f_equal.
    destruct (mem y (get_related_types rels t)) eqn:H1;
    destruct (mem y (related_types_spec rels t)) eqn:H2; auto.
    + apply mem_In in H1. apply (Permutation_in _ (get_related_types_perm rels t)) in H1.
      apply mem_In in H1. congruence.
    + apply mem_In in H2.
      apply (Permutation_in _ (Permutation_sym (get_related_types_perm rels t))) in H2.
      apply mem_In in H2. congruence.
  - simpl get_or_validate_related_types. unfold validate_related_types.
    rewrite validate_loop_length. simpl. lia.
Qed.

(** ** [get_velcro_type] *)

Lemma entry_matches_iff (a m : string) (e : app_entry) :
  entry_matches a m e = true <-> app_label e = a /\ model e = m.
Proof.
  unfold entry_matches. rewrite andb_true_iff, !String.eqb_eq. tauto.
Qed.

Lemma first_velcro_type_none (a m : string) (l : list (string * velcro_type_metadata)) :
  first_velcro_type a m l = None <->
  forall x, In x l -> existsb (entry_matches a m) (apps (snd x)) = false.
Proof.
  induction l as [|[t v] l IH]; simpl; [split; [intros _ x []|auto]|].
  destruct (existsb (entry_matches a m) (apps v)) eqn:He.
  - split; [discriminate|]. intros H. specialize (H (t, v) (or_introl eq_refl)).
    simpl in H. congruence.
  - rewrite IH. split.
    + intros H x [<-|Hx]; [exact He|auto].
    + intros H x Hx. auto.
Qed.

Lemma first_velcro_type_some (a m t : string) (l : list (string * velcro_type_metadata)) :
  first_velcro_type a m l = Some t ->
  exists v, In (t, v) l /\ existsb (entry_matches a m) (apps v) = true.
Proof.
  induction l as [|[t' v] l IH]; simpl; [discriminate|].
  destruct (existsb (entry_matches a m) (apps v)) eqn:He.
  - intros [= <-]. eauto.
  - intros H. destruct (IH H) as [v' [Hin Hm]]. eauto.
Qed.

Lemma first_velcro_type_least (a m t : string) (l : list (string * velcro_type_metadata)) :
  StronglySorted (fun x y => String.leb (fst x) (fst y) = true) l ->
  first_velcro_type a m l = Some t ->
  forall x, In x l -> existsb (entry_matches a m) (apps (snd x)) = true ->
  String.leb t (fst x) = true.
Proof.
  induction 1 as [|[t' v] l Hs IH Hall]; simpl; [discriminate|].
  destruct (existsb (entry_matches a m) (apps v)) eqn:He.
  - intros [= <-] x [<-|Hx] _; [apply string_leb_refl|].
    rewrite Forall_forall in Hall. exact (Hall x Hx).
  - intros H x [<-|Hx] Hm; [simpl in Hm; congruence|]. exact (IH H x Hx Hm).
Qed.

(** C9 *)
(** Claim C9 (as stated, refuted): a model whose metadata entry has the
    same app label up to case and the same class name is not found: the
    code lower-cases the model's app label but compares it with the
    metadata's [app_label] as written, so an entry ['Data'] never matches. *)
Lemma get_velcro_type_case_counterexample :
  get_velcro_type [("data", mk_velcro_type_metadata [entry "Data" "Data"])]
                  (mk_model_class "Data" "Data") = None /\
  lower (app_label (entry "Data" "Data")) = lower "Data" /\
  model (entry "Data" "Data") = "Data".
Proof. vm_compute. auto. Qed.

(** Claim C9 (amended): [get_velcro_type] returns [None] exactly when no
    metadata entry has [app_label] equal to the model's lower-cased app
    label and [model] equal to its class name; otherwise it returns a
    velcro type with such an entry, the least such type in sorted-key
    order. *)
Theorem get_velcro_type_spec (md : metadata) (c : model_class) :
  (get_velcro_type md c = None <->
   forall t v e, In (t, v) md -> In e (apps v) ->
   ~ (app_label e = lower (mc_app_label c) /\ model e = mc_object_name c)) /\
  (forall t, get_velcro_type md c = Some t ->
   (exists v e, In (t, v) md /\ In e (apps v) /\
                app_label e = lower (mc_app_label c) /\ model e = mc_object_name c) /\
   (forall t' v' e', In (t', v') md -> In e' (apps v') ->
    app_label e' = lower (mc_app_label c) -> model e' = mc_object_name c ->
    String.leb t t' = true)).
Proof.
  unfold get_velcro_type.
  pose proof (sorted_by_perm (key_leb fst) md) as Hperm.
  split.
  - rewrite first_velcro_type_none. split.
    + intros H t v e Hin He Hm.
      apply (Permutation_in _ (Permutation_sym Hperm)) in Hin.
      specialize (H _ Hin). simpl in H.
      assert (existsb (entry_matches (lower (mc_app_label c)) (mc_object_name c)) (apps v) = true)
        by (apply existsb_exists; exists e; split; [exact He|now apply entry_matches_iff]).
      congruence.
    + intros H [t v] Hin. simpl.
      apply (Permutation_in _ Hperm) in Hin.
      destruct (existsb _ (apps v)) eqn:He; [|reflexivity].
      apply existsb_exists in He. destruct He as [e [He Hm]].
      apply entry_matches_iff in Hm. exfalso. exact (H t v e Hin He Hm).
  - intros t Ht. split.
    + destruct (first_velcro_type_some _ _ _ _ Ht) as [v [Hin Hm]].
      apply (Permutation_in _ Hperm) in Hin.
      apply existsb_exists in Hm. destruct Hm as [e [He Hm]].
      apply entry_matches_iff in Hm. exists v, e. tauto.
    + intros t' v' e' Hin He' Ha Hm.
      apply (Permutation_in _ (Permutation_sym Hperm)) in Hin.
      apply (first_velcro_type_least _ _ _ _ (sorted_by_key_strongly fst md) Ht (t', v') Hin).
      simpl. apply existsb_exists. exists e'. split; [exact He'|].
      now apply entry_matches_iff.
Qed.

(** ** The ORM and the generated models *)

Lemma option_string_eqb_refl (a : option string) : option_string_eqb a a = true.
Proof. destruct a; simpl; auto using String.eqb_refl. Qed.

Lemma obj_eqb_refl (o : obj) : obj_eqb o o = true.
Proof. unfold obj_eqb. now rewrite !String.eqb_refl, Nat.eqb_refl. Qed.

Lemma ct_eqb_refl (c : content_type) : ct_eqb c c = true.
Proof. unfold ct_eqb. now rewrite !String.eqb_refl. Qed.

Lemma orm_filter_db m q d : snd (orm_filter m q d) = d.
Proof. unfold orm_filter. destruct forallb; reflexivity. Qed.

Lemma orm_get_db m q d : snd (orm_get m q d) = d.
Proof.
  unfold orm_get, bind. pose proof (orm_filter_db m q d) as H.
  destruct (orm_filter m q d) as [[rows|e] d']; simpl in H; subst; [|reflexivity].
  destruct rows as [|r [|r' rows]]; reflexivity.
Qed.

Lemma sorted2_cases (r : string * string) :
  (sorted2 r = r \/ sorted2 r = (snd r, fst r)) /\
  String.leb (fst (sorted2 r)) (snd (sorted2 r)) = true.
Proof.
  destruct r as [x y]. unfold sorted2. destruct (String.leb x y) eqn:H; simpl.
  - auto.
  - split; [auto|]. now apply string_leb_total_false.
Qed.

Lemma sorted2_same (r : string * string) :
  String.eqb (fst (sorted2 r)) (snd (sorted2 r)) = String.eqb (fst r) (snd r).
Proof.
  destruct r as [x y]. unfold sorted2. destruct (String.leb x y); simpl; auto.
  apply String.eqb_sym.
Qed.

Lemma generate_sametype_kind md r m :
  generate_relationship_model md r = Ok m -> fst r = snd r ->
  rm_kind m = SameType (fst r).
Proof.
  destruct r as [x y]. simpl. intros H <-. unfold generate_relationship_model in H.
  unfold sorted2 in H. rewrite string_leb_refl, String.eqb_refl in H.
  destruct (_generate_relationship_model_sametype md x); [|discriminate].
  now injection H as <-.
Qed.

(** C8 *)
(** Claim C8: no object is related to itself.  [add_related_content(x, x)]
    raises [ValueError] and leaves the database as it was (for every object
    [x]), and the [save] of a generated reflexive relationship model whose
    two endpoints coincide persists nothing. *)
Theorem no_self_relationship (md : metadata) (reg : list (string * rel_model))
    (ct_name : content_type -> string) (object_str : content_type -> nat -> string) :
  (forall (x : obj) (d : db),
     add_related_content md reg ct_name object_str x x d = (Raise ValueError, d)) /\
  (forall r m force_insert i d,
     generate_relationship_model md r = Ok m -> fst r = snd r ->
     ri_ct_1 i = ri_ct_2 i -> ri_pk_1 i = ri_pk_2 i ->
     snd (relationship_save ct_name object_str m force_insert i d) = d).
Proof.
  split.
  - intros x d. unfold add_related_content. rewrite option_string_eqb_refl.
    unfold _add_or_remove_related_content_sametype. rewrite obj_eqb_refl. reflexivity.
  - intros r m force_insert i d Hgen Hr Hct Hpk.
    pose proof (generate_sametype_kind md r m Hgen Hr) as Hk.
    unfold relationship_save, bind, try_except. rewrite Hk.
    pose proof (orm_get_db m (save_query (SameType (fst r)) i) d) as Hd.
    destruct (orm_get m (save_query (SameType (fst r)) i) d) as [[row|e] d'];
      simpl in Hd; subst d'; simpl;
      unfold is_self_relation; simpl; rewrite Hct, Hpk, ct_eqb_refl, Nat.eqb_refl;
      reflexivity.
Qed.

(** The same at a concrete reflexive model and a self-relation. *)
Lemma no_self_relationship_witness :
  add_related_content md_ex registry_ex ct_name_ex object_str_ex
    (mk_obj pub_cls 1) (mk_obj pub_cls 1) empty_db = (Raise ValueError, empty_db) /\
  (exists m, generate_relationship_model md_ex ("publication", "publication") = Ok m /\
   snd (relationship_save ct_name_ex object_str_ex m false
          (mk_rel_instance None (get_for_model pub_cls) 1 (get_for_model pub_cls) 1)
          empty_db) = empty_db).
Proof.
  destruct (no_self_relationship md_ex registry_ex ct_name_ex object_str_ex) as [H1 H2].
  split; [apply H1|].
  eexists. split; [reflexivity|].
  apply (H2 ("publication", "publication")); reflexivity.
Defined.

(** ** Field names of the generated models *)

Lemma string_append_nil_r (s : string) : s ++ "" = s.
Proof. induction s; simpl; congruence. Qed.

Lemma string_rev_app (a b : string) : string_rev (a ++ b) = string_rev b ++ string_rev a.
Proof.
  induction a as [|c a IH]; simpl.
  - now rewrite string_append_nil_r.
  - rewrite IH. now rewrite string_append_assoc.
Qed.

(** Distinct field names: compare the strings from their ends. *)
Ltac string_neq :=
  let H := fresh in
  intro H; apply (f_equal string_rev) in H; rewrite ?string_rev_app in H;
  simpl in H; discriminate H.

Ltac eqb_false :=
  repeat match goal with
  | |- context [String.eqb ?x ?y] =>
      let H := fresh in
      assert (H : String.eqb x y = false) by (apply String.eqb_neq; string_neq);
      rewrite H; clear H
  end.

Lemma generated_fields md r m :
  generate_relationship_model md r = Ok m ->
  rm_name m = relationship_class_name r /\
  rm_ordering m = ["order_by"] /\ rm_unique_together m = [] /\
  ((fst r <> snd r /\
    rm_kind m = DiffType (fst (sorted2 r)) (snd (sorted2 r)) /\
    exists md1 md2, dict_get (fst r) md = Some md1 /\ dict_get (snd r) md = Some md2 /\
      rm_fields m = ("id", AutoField) :: ("order_by", CharField 255 true) ::
                    app (endpoint_typedict (fst r) (limit_for md1))
                        (endpoint_typedict (snd r) (limit_for md2))) \/
   (fst r = snd r /\ rm_kind m = SameType (fst r) /\
    exists v, dict_get (fst r) md = Some v /\
      rm_fields m =
        [("id", AutoField);
         ("content_type_1",
          ForeignKeyContentType (limit_for v) "%(app_label)s_%(class)s_related_1");
         ("object_pk_1", PositiveIntegerField);
         ("content_object_1", GenericForeignKey "content_type_1" "object_pk_1");
         ("content_type_2",
          ForeignKeyContentType (limit_for v) "%(app_label)s_%(class)s_related_2");
         ("object_pk_2", PositiveIntegerField);
         ("content_object_2", GenericForeignKey "content_type_2" "object_pk_2");
         ("order_by", CharField 255 true)])).
Proof.
  unfold generate_relationship_model.
  pose proof (sorted2_same r) as Hs.
  destruct (sorted2 r) as [o1 o2] eqn:Hr. simpl in Hs.
  destruct (String.eqb o1 o2) eqn:He.
  - symmetry in Hs. apply String.eqb_eq in He. apply String.eqb_eq in Hs. subst o2.
    assert (Ho : o1 = fst r).
    { destruct r as [x y]; simpl in *; subst y. unfold sorted2 in Hr.
      destruct (String.leb x x); congruence. }
    subst o1.
    unfold _generate_relationship_model_sametype.
    destruct (dict_get (fst r) md) as [v|] eqn:Hv; [|discriminate].
    intros H. injection H as <-. simpl. repeat split; auto.
    right. repeat split; auto. exists v. split; reflexivity.
  - symmetry in Hs. apply String.eqb_neq in Hs.
    unfold _generate_relationship_model_difftype. rewrite Hr.
    destruct (dict_get (fst r) md) as [md1|] eqn:H1; [|discriminate].
    destruct (dict_get (snd r) md) as [md2|] eqn:H2; [|discriminate].
    intros H. injection H as <-. simpl. repeat split; auto.
    left. repeat split; auto. exists md1, md2. repeat split; auto.
Qed.

(** The keys [<velcro_type>_object_id] and [object_id_1], [object_id_2]
    name no field of any generated relationship model. *)
Lemma object_id_keys_unresolved md r m :
  generate_relationship_model md r = Ok m ->
  (forall t, resolves m (t ++ "_object_id") = false) /\
  resolves m "object_id_1" = false /\ resolves m "object_id_2" = false /\
  accepts_kwarg m "object_id_1" = false.
Proof.
  intros H. destruct (generated_fields md r m H) as (_ & _ & _ & Hf).
  unfold resolves, accepts_kwarg.
  destruct Hf as [(_ & _ & md1 & md2 & _ & _ & ->)|(_ & _ & v & _ & ->)];
    repeat split; try intros t; cbn -[String.eqb String.append]; eqb_false;
    reflexivity.
Qed.

Lemma models_startup_loop_generated md rs g reg :
  models_startup_loop md rs g = Ok reg ->
  forall n k, In (n, k) reg -> In (n, k) g \/ exists r, In r rs /\ generate_relationship_model md r = Ok k.
Proof.
  revert g. induction rs as [|r rs IH]; intros g; simpl.
  - intros [= ->]. auto.
  - destruct (generate_relationship_model md r) as [k0|e] eqn:Hg; [|discriminate].
    intros H n k Hin. destruct (IH _ H n k Hin) as [[Heq|Hg']|(r' & Hr' & Hk)].
    + injection Heq as <- <-. right. exists r. auto.
    + auto.
    + right. exists r'. auto.
Qed.

Lemma models_startup_generated md rs reg :
  models_startup md rs = Ok reg ->
  forall n k, In (n, k) reg -> exists r, In r rs /\ generate_relationship_model md r = Ok k.
Proof.
  intros H n k Hin. destruct (models_startup_loop_generated md rs [] reg H n k Hin)
    as [[]|Hr]; exact Hr.
Qed.

Lemma apps_get_model_in reg name k :
  apps_get_model reg name = Ok k -> exists n, In (n, k) reg.
Proof.
  unfold apps_get_model.
  destruct (find _ reg) as [[n k']|] eqn:Hf; [|discriminate].
  intros [= <-]. apply find_some in Hf. exists n. tauto.
Qed.

Lemma get_relationship_class_generated md rs reg t1 t2 k :
  models_startup md rs = Ok reg -> get_relationship_class reg t1 t2 = Ok k ->
  exists r, generate_relationship_model md r = Ok k.
Proof.
  intros Hs. unfold get_relationship_class.
  destruct t1 as [t1|], t2 as [t2|]; try discriminate.
  destruct (sorted2 _) as [a b]. intros Hk.
  destruct (apps_get_model_in _ _ _ Hk) as [n Hin].
  destruct (models_startup_generated md rs reg Hs n k Hin) as (r & _ & Hr). eauto.
Qed.

(** C1 *)
(** Claim C1 (code bug): the related-content query for differing velcro
    types filters on [<velcro_type>_object_id], which names no field of any
    generated relationship model (their fields are [<velcro_type>_object_pk]),
    so for every object the filter raises [FieldError] and nothing is
    returned. *)
Theorem related_content_difftype_field_error (md : metadata) (r : string * string)
    (m : rel_model) (model_class_of : content_type -> model_class)
    (object_str : content_type -> nat -> string) (object : obj)
    (velcro_type related_type : string) (ct : content_type) (limit : option nat) (d : db) :
  generate_relationship_model md r = Ok m ->
  resolves m (velcro_type ++ "_object_id") = false /\
  _get_related_content_difftype model_class_of object_str object velcro_type
    related_type ct m limit d = (Raise FieldError, d).
Proof.
  intros Hg. destruct (object_id_keys_unresolved md r m Hg) as (Ht & _ & _ & _).
  split; [apply Ht|].
  unfold _get_related_content_difftype, bind, orm_filter. cbn -[resolves].
  rewrite Ht. reflexivity.
Qed.

Lemma related_content_difftype_field_error_witness :
  exists m, generate_relationship_model md_ex ("data", "publication") = Ok m /\
   resolves m ("data" ++ "_object_id") = false /\
   _get_related_content_difftype model_class_of_ex object_str_ex (mk_obj data_cls 1)
     "data" "publication" (get_for_model data_cls) m None empty_db =
   (Raise FieldError, empty_db).
Proof.
  eexists. split; [reflexivity|].
  apply (related_content_difftype_field_error md_ex ("data", "publication")).
  reflexivity.
Defined.

(** [get_related_content] at the configuration of the witnesses. *)
Lemma get_related_content_example :
  fst (get_related_content md_ex rels_ex registry_ex model_class_of_ex object_str_ex
         (mk_obj data_cls 1) [] None empty_db) = Raise FieldError /\
  fst (get_related_content md_ex rels_ex registry_ex model_class_of_ex object_str_ex
         (mk_obj pub_cls 1) ["publication"] None empty_db) = Raise FieldError.
Proof. vm_compute. auto. Qed.

Lemma orm_get_sametype_query_fails k o1 o2 d :
  resolves k "object_id_1" = false ->
  orm_get k (sametype_query o1 o2) d = (Raise FieldError, d).
Proof.
  intros H. unfold orm_get, bind, orm_filter, sametype_query. cbn -[resolves].
  rewrite H. cbn -[resolves]. rewrite andb_false_r. reflexivity.
Qed.

Lemma orm_get_relationship_query_fails k o1 t1 o2 t2 d :
  resolves k (t1 ++ "_object_id") = false ->
  orm_get k [_relationship_query o1 t1 o2 t2] d = (Raise FieldError, d).
Proof.
  intros H. unfold orm_get, bind, orm_filter, _relationship_query. cbn -[resolves].
  rewrite H. cbn -[resolves]. rewrite andb_false_r. reflexivity.
Qed.

Lemma orm_create_object_id_fails ctn ostr k c1 v1 v2 rest d :
  accepts_kwarg k "object_id_1" = false ->
  orm_create ctn ostr k ((c1, v1) :: ("object_id_1", v2) :: rest) d = (Raise TypeError, d).
Proof.
  intros H. unfold orm_create. cbn -[accepts_kwarg]. rewrite H.
  rewrite andb_false_r. reflexivity.
Qed.

(** C2 *)
(** Claim C2 (code bug): with the relationship models generated at
    start-up, [add_related_content] and [remove_related_content] raise on
    every pair of objects and database: for differing velcro types the
    [get_or_create] / [get] filters on [<velcro_type>_object_id]
    ([FieldError]); for matching velcro types the caught [get] fails on
    [object_id_1] and the fallback [create(object_id_1=...)] raises
    [TypeError].  No relationship is ever created, so the symmetry of the
    API cannot be observed. *)
Theorem relationship_api_always_raises (md : metadata) (rels : relationships)
    (reg : list (string * rel_model)) (ct_name : content_type -> string)
    (object_str : content_type -> nat -> string) :
  models_startup md rels = Ok reg ->
  forall (o1 o2 : obj) (d : db),
  (exists e, fst (add_related_content md reg ct_name object_str o1 o2 d) = Raise e) /\
  (exists e, fst (remove_related_content md reg ct_name object_str o1 o2 d) = Raise e).
Proof.
  intros Hs o1 o2 d.
  unfold add_related_content, remove_related_content.
  set (t1 := get_velcro_type md (obj_class o1)).
  set (t2 := get_velcro_type md (obj_class o2)).
  destruct (option_string_eqb t1 t2).
  - unfold _add_or_remove_related_content_sametype.
    destruct (obj_eqb o1 o2); [split; eexists; reflexivity|].
    unfold bind at 1 3, lift.
    destruct (get_relationship_class reg t1 t2) as [k|e] eqn:Hk;
      [|split; eexists; reflexivity].
    destruct (get_relationship_class_generated md rels reg t1 t2 k Hs Hk) as [r Hr].
    destruct (object_id_keys_unresolved md r k Hr) as (_ & H1 & _ & H3).
    unfold ret, bind, try_except. rewrite (orm_get_sametype_query_fails k o1 o2 d H1).
    rewrite (orm_create_object_id_fails ct_name object_str k _ _ _ _ d H3).
    split; eexists; reflexivity.
  - unfold _add_or_remove_related_content_difftype.
    unfold bind at 1 3, lift.
    destruct (get_relationship_class reg t1 t2) as [k|e] eqn:Hk;
      [|split; eexists; reflexivity].
    destruct (get_relationship_class_generated md rels reg t1 t2 k Hs Hk) as [r Hr].
    destruct (object_id_keys_unresolved md r k Hr) as (H0 & _ & _ & _).
    unfold ret.
    destruct t1 as [s1|], t2 as [s2|]; try (split; eexists; reflexivity).
    unfold orm_get_or_create, bind, try_except.
    rewrite (orm_get_relationship_query_fails k o1 s1 o2 s2 d (H0 s1)).
    split; eexists; reflexivity.
Qed.

Lemma relationship_api_always_raises_witness :
  models_startup md_ex rels_ex = Ok registry_ex /\
  (exists e, fst (add_related_content md_ex registry_ex ct_name_ex object_str_ex
                    (mk_obj data_cls 1) (mk_obj pub_cls 1) empty_db) = Raise e) /\
  (exists e, fst (remove_related_content md_ex registry_ex ct_name_ex object_str_ex
                    (mk_obj pub_cls 1) (mk_obj data_cls 1) empty_db) = Raise e).
Proof.
  assert (Hs : models_startup md_ex rels_ex = Ok registry_ex) by reflexivity.
  split; [exact Hs|].
  destruct (relationship_api_always_raises md_ex rels_ex registry_ex ct_name_ex
              object_str_ex Hs (mk_obj data_cls 1) (mk_obj pub_cls 1) empty_db) as [Ha _].
  destruct (relationship_api_always_raises md_ex rels_ex registry_ex ct_name_ex
              object_str_ex Hs (mk_obj pub_cls 1) (mk_obj data_cls 1) empty_db) as [_ Hr].
  split; assumption.
Defined.

(** The exceptions at the configuration of the witnesses. *)
Lemma add_related_content_example :
  fst (add_related_content md_ex registry_ex ct_name_ex object_str_ex
         (mk_obj data_cls 1) (mk_obj pub_cls 1) empty_db) = Raise FieldError /\
  fst (add_related_content md_ex registry_ex ct_name_ex object_str_ex
         (mk_obj pub_cls 2) (mk_obj pub_cls 1) empty_db) = Raise TypeError.
Proof. vm_compute. auto. Qed.

Lemma string_prefix_cancel (a b c : string) : a ++ b = a ++ c -> b = c.
Proof. induction a as [|ch a IH]; simpl; [auto|]. intros H. injection H. exact IH. Qed.

Lemma reverse_inline_name_neq (v rel : string) :
  capitalize v ++ "To" ++ capitalize rel ++ "RelationshipInline" <>
  capitalize v ++ "To" ++ capitalize rel ++ "RelationshipReverseInline".
Proof.
  intros H. apply string_prefix_cancel in H. apply string_prefix_cancel in H.
  apply string_prefix_cancel in H. discriminate H.
Qed.

(** C7 *)
(** Claim C7 (code bug): for a reflexive relationship [(t, t)] the
    generated model names its endpoint fields with the suffixes [_1] and
    [_2], and the reverse inline name is produced for a velcro type and a
    related type exactly when they are equal; but the related-content query
    filters on [object_id_1] / [object_id_2], which are not fields of the
    model (it has [object_pk_1] / [object_pk_2]), so it raises [FieldError]
    instead of returning the opposite endpoints. *)
Theorem reflexive_relationship_special_cases (md : metadata) (t : string) (m : rel_model)
    (model_class_of : content_type -> model_class)
    (object_str : content_type -> nat -> string) (object : obj)
    (related_type : string) (ct : content_type) (limit : option nat) (d : db) :
  generate_relationship_model md (t, t) = Ok m ->
  rm_kind m = SameType t /\
  map fst (rm_fields m) =
    ["id"; "content_type_1"; "object_pk_1"; "content_object_1";
     "content_type_2"; "object_pk_2"; "content_object_2"; "order_by"] /\
  _get_related_content_sametype model_class_of object_str object related_type ct m limit d
    = (Raise FieldError, d) /\
  (forall v rel : string,
     In (capitalize v ++ "To" ++ capitalize rel ++ "RelationshipReverseInline")
        (inline_names_for v rel) <-> v = rel).
Proof.
  intros Hg.
  destruct (object_id_keys_unresolved md (t, t) m Hg) as (_ & H1 & _ & _).
  destruct (generated_fields md (t, t) m Hg) as (_ & _ & _ & Hf).
  destruct Hf as [(Hne & _)|(_ & Hk & v & _ & Hfl)]; [simpl in Hne; congruence|].
  split; [exact Hk|]. split; [rewrite Hfl; reflexivity|]. split.
  - unfold _get_related_content_sametype, bind, orm_filter. cbn -[resolves].
    rewrite H1. cbn -[resolves]. rewrite andb_false_r. reflexivity.
  - intros v' rel. unfold inline_names_for. split.
    + intros [Heq|Hin].
      * exfalso. exact (reverse_inline_name_neq v' rel Heq).
      * destruct (String.eqb v' rel) eqn:E; [apply String.eqb_eq; exact E|destruct Hin].
    + intros <-. rewrite String.eqb_refl. right. left. reflexivity.
Qed.

Lemma reflexive_relationship_special_cases_witness :
  exists m, generate_relationship_model md_ex ("publication", "publication") = Ok m /\
  _get_related_content_sametype model_class_of_ex object_str_ex (mk_obj pub_cls 1)
    "publication" (get_for_model pub_cls) m None empty_db = (Raise FieldError, empty_db).
Proof.
  eexists. split; [reflexivity|].
  refine (proj1 (proj2 (proj2 (reflexive_relationship_special_cases md_ex "publication" _
            model_class_of_ex object_str_ex (mk_obj pub_cls 1) "publication"
            (get_for_model pub_cls) None empty_db _)))).
  reflexivity.
Defined.

(** C5 *)
(** Claim C5 (corrected): no generated relationship model declares an
    ORM-level uniqueness constraint: [unique_together] is empty, so the
    constraint accepts every table, including one holding two records with
    the same endpoints. *)
Lemma generated_model_unique_counterexample :
  exists m, generate_relationship_model md_ex ("data", "publication") = Ok m /\
  rm_unique_together m = [] /\
  satisfies_unique_together m
    [mk_row 1 [("data_content_type", VCT (get_for_model data_cls));
               ("data_object_pk", VInt 1);
               ("publication_content_type", VCT (get_for_model pub_cls));
               ("publication_object_pk", VInt 1)];
     mk_row 2 [("data_content_type", VCT (get_for_model data_cls));
               ("data_object_pk", VInt 1);
               ("publication_content_type", VCT (get_for_model pub_cls));
               ("publication_object_pk", VInt 1)]] = true.
Proof. eexists. split; [reflexivity|]. split; reflexivity. Qed.

(** Amended C5: every generated model declares no uniqueness constraint;
    any table satisfies its (empty) [unique_together]. *)
Theorem generated_model_no_unique_constraint (md : metadata) (r : string * string)
    (m : rel_model) :
  generate_relationship_model md r = Ok m ->
  rm_unique_together m = [] /\ forall rows, satisfies_unique_together m rows = true.
Proof.
  intros Hg. destruct (generated_fields md r m Hg) as (_ & _ & Hu & _).
  split; [exact Hu|]. intros rows. unfold satisfies_unique_together. rewrite Hu. reflexivity.
Qed.

Lemma generated_model_no_unique_constraint_witness :
  exists m, generate_relationship_model md_ex ("publication", "publication") = Ok m /\
  rm_unique_together m = [].
Proof.
  eexists. split; [reflexivity|].
  exact (proj1 (generated_model_no_unique_constraint md_ex ("publication", "publication") _
                  eq_refl)).
Defined.

Lemma orm_get_in m q d r0 d' :
  orm_get m q d = (Ok r0, d') -> In r0 (d (rm_name m)) /\ d' = d.
Proof.
  unfold orm_get, bind, orm_filter.
  destruct (forallb (fun c => forallb (fun '(k, _) => resolves m k) c) q);
    [|discriminate].
  destruct (filter (fun r => existsb (row_matches r) q) (d (rm_name m)))
    as [|r1 [|r2 l]] eqn:Hf; try discriminate.
  unfold ret. intros [= <- <-]. split; [|reflexivity].
  assert (Hin : In r1 (filter (fun r => existsb (row_matches r) q) (d (rm_name m))))
    by (rewrite Hf; left; reflexivity).
  apply filter_In in Hin. tauto.
Qed.

Lemma existsb_pk_in (r0 : row) (rows : list row) :
  In r0 rows -> existsb (fun r => Nat.eqb (row_pk r) (row_pk r0)) rows = true.
Proof.
  intros H. apply existsb_exists. exists r0. split; [exact H|apply Nat.eqb_refl].
Qed.

(** C4 *)
(** Claim C4 (corrected): [save] adopts the pk of the record its caught
    [get] finds, and then updates that record when called with
    [force_insert] false, but raises [IntegrityError] when called with
    [force_insert] true (as [objects.create] does); when the [get] raises, an
    instance without pk is inserted as a new record with the next pk.  A
    reflexive model skips the write altogether, found record or not, when
    both endpoints of the instance are the same object. *)
Lemma relationship_save_counterexample :
  exists m, generate_relationship_model md_ex ("publication", "publication") = Ok m /\
  orm_get m (save_query (rm_kind m)
               (mk_rel_instance None (get_for_model pub_cls) 1 (get_for_model pub_cls) 1))
          empty_db = (Raise DoesNotExist, empty_db) /\
  snd (relationship_save ct_name_ex object_str_ex m false
         (mk_rel_instance None (get_for_model pub_cls) 1 (get_for_model pub_cls) 1)
         empty_db) (rm_name m) = [].
Proof. eexists. split; [reflexivity|]. split; reflexivity. Qed.

(** Amended C4. *)
Theorem relationship_save_spec (ct_name : content_type -> string)
    (object_str : content_type -> nat -> string) (m : rel_model)
    (force_insert : bool) (i : rel_instance) (d : db) :
  (forall r0, orm_get m (save_query (rm_kind m) i) d = (Ok r0, d) ->
   let i' := with_pk i (Some (row_pk r0)) in
   relationship_save ct_name object_str m force_insert i d =
     if match rm_kind m with SameType _ => is_self_relation i' | DiffType _ _ => false end
     then (Ok i', d)
     else if force_insert then (Raise IntegrityError, d)
     else (Ok i', db_set d (rm_name m)
                    (replace_row (row_pk r0)
                       (instance_vals (rm_kind m) i' (relationship_str ct_name object_str i'))
                       (d (rm_name m))))) /\
  (forall e, ri_pk i = None ->
   orm_get m (save_query (rm_kind m) i) d = (Raise e, d) ->
   let p := Datatypes.S (max_pk (d (rm_name m))) in
   relationship_save ct_name object_str m force_insert i d =
     if match rm_kind m with SameType _ => is_self_relation i | DiffType _ _ => false end
     then (Ok (with_pk i None), d)
     else (Ok (with_pk i (Some p)),
           db_set d (rm_name m)
             (d (rm_name m) ++
              [mk_row p (instance_vals (rm_kind m) (with_pk i None)
                           (relationship_str ct_name object_str (with_pk i None)))]))).
Proof.
  split.
  - intros r0 Hget i'.
    destruct (orm_get_in m _ d r0 d Hget) as [Hin _].
    unfold relationship_save, bind, try_except. rewrite Hget. unfold ret.
    fold i'.
    assert (Hm : forall vals,
      model_save_base m force_insert (Some (row_pk r0)) vals d =
      if force_insert then (Raise IntegrityError, d)
      else (Ok (row_pk r0), db_set d (rm_name m) (replace_row (row_pk r0) vals (d (rm_name m))))).
    { intros vals. unfold model_save_base. rewrite (existsb_pk_in r0 _ Hin).
      reflexivity. }
    destruct (rm_kind m) eqn:Hk.
    + rewrite Hm. destruct force_insert; reflexivity.
    + destruct (is_self_relation i'); [reflexivity|].
      rewrite Hm. destruct force_insert; reflexivity.
  - intros e Hpk Hget p.
    unfold relationship_save, bind, try_except. rewrite Hget. unfold ret.
    rewrite Hpk.
    assert (Hs : is_self_relation (with_pk i None) = is_self_relation i) by reflexivity.
    destruct (rm_kind m) eqn:Hk.
    + reflexivity.
    + rewrite Hs. destruct (is_self_relation i); reflexivity.
Qed.

Lemma relationship_save_spec_witness :
  exists m, generate_relationship_model md_ex ("data", "publication") = Ok m /\
  snd (relationship_save ct_name_ex object_str_ex m false
         (mk_rel_instance None (get_for_model data_cls) 1 (get_for_model pub_cls) 1)
         empty_db) (rm_name m) =
    [mk_row 1 (instance_vals (rm_kind m)
                 (mk_rel_instance None (get_for_model data_cls) 1 (get_for_model pub_cls) 1)
                 (relationship_str ct_name_ex object_str_ex
                    (mk_rel_instance None (get_for_model data_cls) 1
                       (get_for_model pub_cls) 1)))].
Proof.
  eexists. split; [reflexivity|].
  match goal with
  | |- context [relationship_save _ _ ?m _ _ _] =>
      rewrite (proj2 (relationship_save_spec ct_name_ex object_str_ex m false
                        (mk_rel_instance None (get_for_model data_cls) 1
                           (get_for_model pub_cls) 1)
                        empty_db) DoesNotExist eq_refl eq_refl)
  end.
  reflexivity.
Defined.

Lemma limit_for_fold (g : app_entry -> string * string) (l : list app_entry)
    (L : list (string * string)) :
  fold_left q_or (map (fun e => QAny [g e]) l) (QAny L) = QAny (app L (map g l)).
Proof.
  revert L. induction l as [|e l IH]; intros L; simpl.
  - rewrite app_nil_r. reflexivity.
  - rewrite IH, <- app_assoc. reflexivity.
Qed.

(** The content types admitted by the limit of a velcro type: those of its
    listed models, or every content type when it lists none. *)
Lemma limit_for_admits (v : velcro_type_metadata) (ct : content_type) :
  q_admits (limit_for v) ct = true <->
  apps v = [] \/
  exists e, In e (apps v) /\ ct_app_label ct = lower (app_label e) /\
            ct_model ct = lower (model e).
Proof.
  unfold limit_for. destruct (apps v) as [|e0 l]; simpl.
  - split; auto.
  - rewrite (limit_for_fold (fun e => (lower (app_label e), lower (model e))) l
               [(lower (app_label e0), lower (model e0))]).
    simpl. rewrite Bool.orb_true_iff, existsb_exists.
    rewrite Bool.andb_true_iff, !String.eqb_eq. split.
    + intros [H|((a, b) & Hin & Hab)].
      * right. exists e0. tauto.
      * right. apply in_map_iff in Hin. destruct Hin as (e & [= <- <-] & He).
        apply Bool.andb_true_iff in Hab. rewrite !String.eqb_eq in Hab.
        exists e. tauto.
    + intros [H|(e & [<-|He] & H1 & H2)]; [discriminate| left; tauto |].
      right. exists (lower (app_label e), lower (model e)). split.
      * apply in_map_iff. exists e. tauto.
      * apply Bool.andb_true_iff. rewrite !String.eqb_eq. tauto.
Qed.

Lemma models_startup_loop_installed md rs g0 g :
  models_startup_loop md rs g0 = Ok g ->
  (forall x, In x g0 -> In x g) /\
  forall r, In r rs -> exists m, generate_relationship_model md r = Ok m /\ In (rm_name m, m) g.
Proof.
  revert g0. induction rs as [|r rs IH]; intros g0; simpl.
  - intros [= ->]. split; [auto|contradiction].
  - destruct (generate_relationship_model md r) as [k|e] eqn:Hg; [|discriminate].
    intros H. destruct (IH _ H) as [Hk Hr]. split.
    + intros x Hx. apply Hk. right. exact Hx.
    + intros r' [<-|Hin].
      * exists k. split; [exact Hg|]. apply Hk. left. reflexivity.
      * exact (Hr r' Hin).
Qed.

(** C3 *)
(** Claim C3 (corrected): for a velcro type whose [apps] list is empty the
    content-type foreign key of the generated model is not limited at all:
    [reduce(operator.or_, [], Q())] is the empty [Q], which admits every
    content type. *)
Lemma generated_model_limit_counterexample :
  exists m, generate_relationship_model
              [("data", mk_velcro_type_metadata []);
               ("publication", mk_velcro_type_metadata [entry "publication" "Publication"])]
              ("data", "publication") = Ok m /\
  match dict_get "data_content_type" (rm_fields m) with
  | Some (ForeignKeyContentType q _) => q_admits q (mk_content_type "auth" "user")
  | _ => false
  end = true.
Proof. eexists. split; reflexivity. Qed.

(** Amended C3: when start-up succeeds, every relationship [r] has a
    generated model installed in the module globals, named after the sorted
    capitalized velcro types, ordered by its [order_by] char field, and with
    per side a content-type foreign key limited by [limit_for], a
    positive-integer pk field and a generic foreign key over both; the sides
    are prefixed by the velcro type for differing types and suffixed [_1],
    [_2] for matching ones.  Each limit admits exactly the content types
    (lower-cased app label, lower-cased model) listed for the side's velcro
    type, or every content type when that type lists no model. *)
Theorem generated_relationship_models (md : metadata) (rels : relationships)
    (g : list (string * rel_model)) :
  models_startup md rels = Ok g ->
  forall r, In r rels ->
  exists m, generate_relationship_model md r = Ok m /\ In (rm_name m, m) g /\
    rm_name m = capitalize (fst (sorted2 r)) ++ capitalize (snd (sorted2 r))
                ++ "Relationship" /\
    String.leb (fst (sorted2 r)) (snd (sorted2 r)) = true /\
    rm_ordering m = ["order_by"] /\
    In ("order_by", CharField 255 true) (rm_fields m) /\
    ((fst r <> snd r /\
      forall t, t = fst r \/ t = snd r ->
      exists v, dict_get t md = Some v /\
        incl (endpoint_typedict t (limit_for v)) (rm_fields m) /\
        limit_admits_listed v) \/
     (fst r = snd r /\
      exists v, dict_get (fst r) md = Some v /\
        limit_admits_listed v /\
        incl [("content_type_1",
               ForeignKeyContentType (limit_for v) "%(app_label)s_%(class)s_related_1");
              ("object_pk_1", PositiveIntegerField);
              ("content_object_1", GenericForeignKey "content_type_1" "object_pk_1");
              ("content_type_2",
               ForeignKeyContentType (limit_for v) "%(app_label)s_%(class)s_related_2");
              ("object_pk_2", PositiveIntegerField);
              ("content_object_2", GenericForeignKey "content_type_2" "object_pk_2")]
             (rm_fields m))).
Proof.
  intros Hs r Hr.
  destruct (proj2 (models_startup_loop_installed md rels [] g Hs) r Hr) as (m & Hg & Hin).
  exists m. split; [exact Hg|]. split; [exact Hin|].
  destruct (generated_fields md r m Hg) as (Hn & Ho & _ & Hf).
  split; [rewrite Hn; unfold relationship_class_name; destruct (sorted2 r); reflexivity|].
  split; [exact (proj2 (sorted2_cases r))|].
  split; [exact Ho|].
  destruct Hf as [(Hne & _ & md1 & md2 & H1 & H2 & Hfl)|(Heq & _ & v & Hv & Hfl)];
    rewrite Hfl.
  - split; [right; left; reflexivity|]. left. split; [exact Hne|].
    intros t [->| ->]; [exists md1|exists md2]; (split; [assumption|]);
      (split; [|intros ct; apply limit_for_admits]);
      intros x Hx; right; right; apply in_or_app; auto.
  - split; [simpl; tauto|]. right. split; [exact Heq|]. exists v. split; [exact Hv|].
    split; [intros ct; apply limit_for_admits|].
    intros x Hx. right. simpl in Hx. simpl. tauto.
Qed.

Lemma generated_relationship_models_witness :
  models_startup md_ex rels_ex = Ok registry_ex /\
  exists m, generate_relationship_model md_ex ("data", "publication") = Ok m /\
            In (rm_name m, m) registry_ex.
Proof.
  assert (Hs : models_startup md_ex rels_ex = Ok registry_ex) by reflexivity.
  split; [exact Hs|].
  destruct (generated_relationship_models md_ex rels_ex registry_ex Hs
              ("data", "publication") (or_introl eq_refl)) as (m & Hg & Hin & _).
  exists m. split; assumption.
Defined.

(** *** The admin start-up *)

Lemma model_key_eqb_eq (a b : model_key) : model_key_eqb a b = true -> a = b.
Proof.
  destruct a as [x|[x1 x2]], b as [y|[y1 y2]]; simpl; try discriminate.
  - intros H. apply String.eqb_eq in H. subst. reflexivity.
  - rewrite Bool.andb_true_iff, !String.eqb_eq. intros [-> ->]. reflexivity.
Qed.

Lemma model_key_eqb_refl (a : model_key) : model_key_eqb a a = true.
Proof. destruct a; simpl; rewrite ?String.eqb_refl; reflexivity. Qed.

Lemma registry_get_unregister_other (k k' : model_key) reg :
  model_key_eqb k k' = false ->
  registry_get k (registry_unregister k' reg) = registry_get k reg.
Proof.
  intros Hk. induction reg as [|[k0 a0] reg IH]; simpl; [reflexivity|].
  destruct (model_key_eqb k' k0) eqn:E; simpl.
  - apply model_key_eqb_eq in E. subst k0. rewrite Hk. exact IH.
  - rewrite IH. reflexivity.
Qed.

Lemma seqS_ok (a b : S) st st'' :
  seqS a b st = Ok st'' -> exists st', a st = Ok st' /\ b st' = Ok st''.
Proof.
  unfold seqS. destruct (a st) as [st'|e]; [|discriminate]. eauto.
Qed.

Section AdminProofs.

Variable md : metadata.
Variable rels : relationships.
Variable INL : bool.
Variable GEN : bool.
Variable registry : list (string * rel_model).
Variable installed : list model_class.

Lemma add_velcro_step app_name model_name t st st' :
  add_velcro_to_third_party_admin md rels INL GEN installed app_name model_name t st
    = Ok st' ->
  st_models st' = st_models st /\ st_inlines st' = st_inlines st /\
  exists c orig upd,
    apps_get_installed_model installed app_name model_name = Ok c /\
    registry_get (AppKey c) (st_registry st) = Some orig /\
    st_registry st' = (AppKey c, upd) :: registry_unregister (AppKey c) (st_registry st) /\
    incl (adm_inlines orig) (adm_inlines upd) /\
    (INL = true -> incl (flat_map (inline_names_for t) (get_related_types rels t))
                        (adm_inlines upd)).
Proof.
  unfold add_velcro_to_third_party_admin.
  destruct (apps_get_installed_model installed app_name model_name) as [c|e] eqn:Hc;
    [|discriminate].
  destruct (registry_get (AppKey c) (st_registry st)) as [orig|] eqn:Ho; [|discriminate].
  destruct INL eqn:HI.
  - unfold get_relationship_inlines.
    destruct (forallb _ _); [|discriminate].
    intros [= <-]. simpl. split; [reflexivity|]. split; [reflexivity|].
    eexists c, orig, _. split; [reflexivity|]. split; [exact Ho|]. split; [reflexivity|].
    simpl. split.
    + intros x Hx. apply in_or_app. auto.
    + intros _ x Hx. apply in_or_app. auto.
  - intros [= <-]. simpl. split; [reflexivity|]. split; [reflexivity|].
    eexists c, orig, _. split; [reflexivity|]. split; [exact Ho|]. split; [reflexivity|].
    simpl. split; [intros x Hx; exact Hx|discriminate].
Qed.

Lemma add_velcro_preserves_app app_name model_name t st st' c N :
  add_velcro_to_third_party_admin md rels INL GEN installed app_name model_name t st
    = Ok st' ->
  (exists adm, registry_get (AppKey c) (st_registry st) = Some adm /\ incl N (adm_inlines adm)) ->
  exists adm, registry_get (AppKey c) (st_registry st') = Some adm /\ incl N (adm_inlines adm).
Proof.
  intros H (adm & Ha & HN).
  destruct (add_velcro_step _ _ _ _ _ H) as (_ & _ & c0 & orig & upd & _ & Ho & Hr & Hi & _).
  rewrite Hr. cbn [registry_get st_registry].
  destruct (model_key_eqb (AppKey c) (AppKey c0)) eqn:E.
  - apply model_key_eqb_eq in E. injection E as ->.
    rewrite Ha in Ho. injection Ho as ->.
    exists upd. split; [reflexivity|]. intros x Hx. apply Hi, HN, Hx.
  - rewrite registry_get_unregister_other by exact E. eauto.
Qed.

Lemma add_velcro_preserves_rel app_name model_name t st st' n :
  add_velcro_to_third_party_admin md rels INL GEN installed app_name model_name t st
    = Ok st' ->
  registry_get (RelKey n) (st_registry st') = registry_get (RelKey n) (st_registry st).
Proof.
  intros H.
  destruct (add_velcro_step _ _ _ _ _ H) as (_ & _ & c0 & orig & upd & _ & _ & Hr & _).
  rewrite Hr. simpl. apply registry_get_unregister_other. reflexivity.
Qed.

Lemma third_party_fold_preserves (P : admin_state -> Prop) t l st st' :
  (forall a m st1 st2,
     add_velcro_to_third_party_admin md rels INL GEN installed a m t st1 = Ok st2 ->
     P st1 -> P st2) ->
  fold_right (fun e k => seqS (add_velcro_to_third_party_admin md rels INL GEN installed
                                 (app_label e) (model e) t) k)
             (fun st => Ok st) l st = Ok st' ->
  P st -> P st'.
Proof.
  intros HP. revert st. induction l as [|e l IH]; intros st; simpl.
  - intros [= ->]. auto.
  - intros H Hs. destruct (seqS_ok _ _ _ _ H) as (st1 & H1 & H2).
    exact (IH st1 H2 (HP _ _ _ _ H1 Hs)).
Qed.

Lemma third_party_preserves (P : admin_state -> Prop) items st st' :
  (forall a m t st1 st2,
     add_velcro_to_third_party_admin md rels INL GEN installed a m t st1 = Ok st2 ->
     P st1 -> P st2) ->
  third_party_startup md rels INL GEN installed items st = Ok st' ->
  P st -> P st'.
Proof.
  intros HP. revert st. induction items as [|[t v] items IH]; intros st; simpl.
  - intros [= ->]. auto.
  - intros H Hs. destruct (seqS_ok _ _ _ _ H) as (st1 & H1 & H2).
    apply (IH st1 H2). exact (third_party_fold_preserves P t _ _ _ (fun a m => HP a m t) H1 Hs).
Qed.

Lemma third_party_fold_establishes t l st st' :
  fold_right (fun e k => seqS (add_velcro_to_third_party_admin md rels INL GEN installed
                                 (app_label e) (model e) t) k)
             (fun st => Ok st) l st = Ok st' ->
  forall e, In e l ->
  exists c, apps_get_installed_model installed (app_label e) (model e) = Ok c /\
    (INL = true ->
     exists adm, registry_get (AppKey c) (st_registry st') = Some adm /\
       incl (flat_map (inline_names_for t) (get_related_types rels t)) (adm_inlines adm)).
Proof.
  revert st. induction l as [|e0 l IH]; intros st; simpl; [intros _ e []|].
  intros H e He. destruct (seqS_ok _ _ _ _ H) as (st1 & H1 & H2).
  destruct He as [<-|He]; [|exact (IH st1 H2 e He)].
  destruct (add_velcro_step _ _ _ _ _ H1) as (_ & _ & c & orig & upd & Hc & _ & Hr & _ & Hn).
  exists c. split; [exact Hc|]. intros HI.
  refine (third_party_fold_preserves
            (fun s => exists adm, registry_get (AppKey c) (st_registry s) = Some adm /\
                      incl (flat_map (inline_names_for t) (get_related_types rels t))
                           (adm_inlines adm))
            t l st1 st' _ H2 _).
  - intros a m s1 s2 Hs. apply add_velcro_preserves_app with (1 := Hs).
  - exists upd. rewrite Hr. cbn [registry_get st_registry].
    rewrite model_key_eqb_refl. split; [reflexivity|]. exact (Hn HI).
Qed.

Lemma third_party_establishes items st st' :
  third_party_startup md rels INL GEN installed items st = Ok st' ->
  forall t v e, In (t, v) items -> In e (apps v) ->
  exists c, apps_get_installed_model installed (app_label e) (model e) = Ok c /\
    (INL = true ->
     exists adm, registry_get (AppKey c) (st_registry st') = Some adm /\
       incl (flat_map (inline_names_for t) (get_related_types rels t)) (adm_inlines adm)).
Proof.
  revert st. induction items as [|[t0 v0] items IH]; intros st; simpl; [intros _ t v e []|].
  intros H t v e Hin He. destruct (seqS_ok _ _ _ _ H) as (st1 & H1 & H2).
  destruct Hin as [[= <- <-]|Hin]; [|exact (IH st1 H2 t v e Hin He)].
  destruct (third_party_fold_establishes _ _ _ _ H1 e He) as (c & Hc & Hn).
  exists c. split; [exact Hc|]. intros HI.
  refine (third_party_preserves
            (fun s => exists adm, registry_get (AppKey c) (st_registry s) = Some adm /\
                      incl (flat_map (inline_names_for t0) (get_related_types rels t0))
                           (adm_inlines adm))
            items st1 st' _ H2 (Hn HI)).
  intros a m t' s1 s2 Hs. apply add_velcro_preserves_app with (1 := Hs).
Qed.

(** The relationship part of the start-up only adds inline classes and
    registrations. *)
Lemma relationships_startup_preserves rs st st' :
  relationships_startup md INL registry rs st = Ok st' ->
  (forall x, In x (st_inlines st) -> In x (st_inlines st')) /\
  (forall n a, registry_get (RelKey n) (st_registry st) = Some a ->
               registry_get (RelKey n) (st_registry st') = Some a).
Proof.
  revert st. induction rs as [|r rs IH]; intros st; simpl.
  - intros [= ->]. split; auto.
  - intros H. destruct (seqS_ok _ _ _ _ H) as (st1 & H1 & H2).
    destruct (seqS_ok _ _ _ _ H2) as (st2 & H3 & H4).
    destruct (seqS_ok _ _ _ _ H4) as (st3 & H5 & H6).
    destruct (IH st3 H6) as [IHi IHr].
    assert (E1 : st_inlines st1 = st_inlines st /\ st_registry st1 = st_registry st).
    { unfold import_relationship_model in H1.
      destruct (apps_get_model _ _); [|discriminate]. injection H1 as <-. auto. }
    assert (E2 : (forall x, In x (st_inlines st1) -> In x (st_inlines st2)) /\
                 st_registry st2 = st_registry st1).
    { assert (G : forall rev s s', generate_inline_model md r rev s = Ok s' ->
                    (forall x, In x (st_inlines s) -> In x (st_inlines s')) /\
                    st_registry s' = st_registry s).
      { intros rev s s'. unfold generate_inline_model.
        destruct (if rev then sorted2_reverse r else sorted2 r) as [o1 o2].
        destruct (dict_get _ (st_models s)); [|discriminate].
        destruct (dict_get o2 md); [|discriminate].
        destruct (if String.eqb o1 o2 then _ else _) as [[[kn cf] cfk] fs].
        intros [= <-]. simpl. split; auto. }
      destruct INL.
      - destruct (seqS_ok _ _ _ _ H3) as (s & Ha & Hb).
        destruct (G _ _ _ Ha) as [Ga Ga']. destruct (G _ _ _ Hb) as [Gb Gb'].
        split; [auto|congruence].
      - injection H3 as <-. auto. }
    assert (E3 : st_inlines st3 = st_inlines st2 /\
                 forall n a, registry_get (RelKey n) (st_registry st2) = Some a ->
                             registry_get (RelKey n) (st_registry st3) = Some a).
    { unfold generate_and_register_admin_model, admin_register in H5.
      destruct (dict_get _ (st_models st2)) as [k|]; [|discriminate].
      destruct (registry_get (RelKey (rm_name k)) (st_registry st2)) eqn:Hk; [discriminate|].
      injection H5 as <-. simpl. split; [reflexivity|].
      intros n a Hn. destruct (model_key_eqb (RelKey n) (RelKey (rm_name k))) eqn:E.
      - apply model_key_eqb_eq in E. rewrite <- E in Hk. congruence.
      - simpl in E. rewrite E. exact Hn. }
    destruct E1 as [E1i E1r], E2 as [E2i E2r], E3 as [E3i E3r].
    split.
    + intros x Hx. apply IHi. rewrite E3i. apply E2i. rewrite E1i. exact Hx.
    + intros n a Hn. apply IHr, E3r. rewrite E2r, E1r. exact Hn.
Qed.

Lemma generate_inline_model_forward r s s' :
  generate_inline_model md r false s = Ok s' ->
  st_models s' = st_models s /\ st_registry s' = st_registry s /\
  In (capitalize (fst (sorted2 r)) ++ "To" ++ capitalize (snd (sorted2 r))
      ++ "RelationshipInline") (map fst (st_inlines s')).
Proof.
  unfold generate_inline_model. destruct (sorted2 r) as [o1 o2]. simpl.
  destruct (dict_get _ (st_models s)); [|discriminate].
  destruct (dict_get o2 md); [|discriminate].
  destruct (String.eqb o1 o2); intros [= <-]; simpl; auto.
Qed.

Lemma generate_inline_model_reverse r s s' :
  generate_inline_model md r true s = Ok s' ->
  st_models s' = st_models s /\ st_registry s' = st_registry s /\
  In (if String.eqb (fst (sorted2 r)) (snd (sorted2 r))
      then capitalize (fst (sorted2 r)) ++ "To" ++ capitalize (snd (sorted2 r))
           ++ "RelationshipReverseInline"
      else capitalize (snd (sorted2 r)) ++ "To" ++ capitalize (fst (sorted2 r))
           ++ "RelationshipInline") (map fst (st_inlines s')).
Proof.
  unfold generate_inline_model, sorted2_reverse. destruct (sorted2 r) as [o1 o2]. simpl.
  destruct (dict_get _ (st_models s)); [|discriminate].
  destruct (dict_get o1 md); [|discriminate].
  rewrite (String.eqb_sym o2 o1).
  destruct (String.eqb o1 o2) eqn:E; intros [= <-]; simpl; [|auto].
  apply String.eqb_eq in E. subst o2. auto.
Qed.

Lemma relationships_startup_establishes rs st st' :
  relationships_startup md INL registry rs st = Ok st' ->
  forall r, In r rs ->
  exists k, apps_get_model registry (relationship_class_name r) = Ok k /\
    registry_get (RelKey (rm_name k)) (st_registry st') =
      Some (mk_admin_class (relationship_class_name r ++ "Admin")
              ["GenericAdminModelAdmin"] [] ["order_by"]) /\
    (INL = true ->
     In (capitalize (fst (sorted2 r)) ++ "To" ++ capitalize (snd (sorted2 r))
         ++ "RelationshipInline") (map fst (st_inlines st')) /\
     In (if String.eqb (fst (sorted2 r)) (snd (sorted2 r))
         then capitalize (fst (sorted2 r)) ++ "To" ++ capitalize (snd (sorted2 r))
              ++ "RelationshipReverseInline"
         else capitalize (snd (sorted2 r)) ++ "To" ++ capitalize (fst (sorted2 r))
              ++ "RelationshipInline") (map fst (st_inlines st'))).
Proof.
  revert st. induction rs as [|r0 rs IH]; intros st H r Hr; [destruct Hr|].
  simpl in H. destruct (seqS_ok _ _ _ _ H) as (st1 & H1 & H2).
  destruct (seqS_ok _ _ _ _ H2) as (st2 & H3 & H4).
  destruct (seqS_ok _ _ _ _ H4) as (st3 & H5 & H6).
  destruct Hr as [->|Hr]; [|exact (IH st3 H6 r Hr)].
  destruct (relationships_startup_preserves rs st3 st' H6) as [Pi Pr].
  unfold import_relationship_model in H1.
  destruct (apps_get_model registry (relationship_class_name r)) as [k|e] eqn:Hk;
    [|discriminate].
  injection H1 as <-.
  assert (Hm : st_models st2 = (relationship_class_name r, k) :: st_models st).
  { destruct INL.
    - destruct (seqS_ok _ _ _ _ H3) as (s & Ha & Hb).
      destruct (generate_inline_model_forward _ _ _ Ha) as [Ma _].
      destruct (generate_inline_model_reverse _ _ _ Hb) as [Mb _].
      rewrite Mb, Ma. reflexivity.
    - injection H3 as <-. reflexivity. }
  exists k. split; [reflexivity|].
  assert (Hst3 : st_inlines st3 = st_inlines st2 /\
                 registry_get (RelKey (rm_name k)) (st_registry st3) =
                 Some (mk_admin_class (relationship_class_name r ++ "Admin")
                         ["GenericAdminModelAdmin"] [] ["order_by"])).
  { unfold generate_and_register_admin_model, admin_register in H5.
    rewrite Hm in H5. simpl in H5. rewrite String.eqb_refl in H5.
    destruct (registry_get (RelKey (rm_name k)) (st_registry st2)); [discriminate|].
    injection H5 as <-. simpl. rewrite String.eqb_refl. split; reflexivity. }
  destruct Hst3 as [Hi3 Hr3].
  split; [exact (Pr _ _ Hr3)|].
  intros HI. rewrite HI in H3.
  destruct (seqS_ok _ _ _ _ H3) as (s & Ha & Hb).
  destruct (generate_inline_model_forward _ _ _ Ha) as (_ & _ & Fa).
  destruct (generate_inline_model_reverse _ _ _ Hb) as (_ & _ & Fb).
  assert (Hsub : forall x, In x (map fst (st_inlines s)) -> In x (map fst (st_inlines st'))).
  { intros x Hx. apply in_map_iff in Hx. destruct Hx as (y & <- & Hy).
    apply in_map. apply Pi. rewrite Hi3.
    unfold generate_inline_model in Hb. destruct (sorted2_reverse r) as [o1 o2].
    destruct (dict_get _ (st_models s)); [|discriminate].
    destruct (dict_get o2 md); [|discriminate].
    destruct (if String.eqb o1 o2 then _ else _) as [[[kn cf] cfk] fs].
    injection Hb as <-. simpl. right. exact Hy. }
  split; [exact (Hsub _ Fa)|].
  apply in_map_iff in Fb. destruct Fb as (y & Hy & Hin).
  rewrite <- Hy. apply in_map. apply Pi. rewrite Hi3. exact Hin.
Qed.

End AdminProofs.

Lemma related_type_inline_in (rels : relationships) (t : string) (r : string * string) :
  In r rels -> rel_contains t r = true ->
  In (capitalize t ++ "To" ++ capitalize (rel_other t r) ++ "RelationshipInline")
     (flat_map (inline_names_for t) (get_related_types rels t)).
Proof.
  intros Hr Hc. apply in_flat_map. exists (rel_other t r). split.
  - apply (Permutation_in _ (Permutation_sym (get_related_types_perm rels t))).
    unfold related_types_spec. apply in_map. apply filter_In. auto.
  - left. reflexivity.
Qed.

(** C6 *)
(** Claim C6 (code bug): admin.py imports [VELCRO_GENERICADMIN] from
    [.settings], which does not define it, so importing the module raises
    [ImportError] before its start-up runs.  The start-up itself does what
    the claim says: for every relationship an admin class
    [{A}{B}RelationshipAdmin] with [order_by] read-only is registered for
    the relationship model; with [VELCRO_INLINES] the inline classes of both
    directions ([{A}To{B}RelationshipInline], and [{B}To{A}...Inline] or the
    reflexive [...ReverseInline]) are generated; and the registered admin of
    every model listed for a velcro type [t] gets the inline
    [{T}To{U}RelationshipInline] of every relationship of [t]. *)
Theorem admin_startup_import_error :
  (forall md rels inlines generic registry installed st,
     admin_module md rels inlines generic registry installed st = Raise ImportError) /\
  (forall md rels inlines generic registry installed st0 st,
     admin_startup md rels inlines generic registry installed st0 = Ok st ->
     (forall r, In r rels ->
      exists k, apps_get_model registry (relationship_class_name r) = Ok k /\
        registry_get (RelKey (rm_name k)) (st_registry st) =
          Some (mk_admin_class (relationship_class_name r ++ "Admin")
                  ["GenericAdminModelAdmin"] [] ["order_by"]) /\
        (inlines = true ->
         In (capitalize (fst (sorted2 r)) ++ "To" ++ capitalize (snd (sorted2 r))
             ++ "RelationshipInline") (map fst (st_inlines st)) /\
         In (if String.eqb (fst (sorted2 r)) (snd (sorted2 r))
             then capitalize (fst (sorted2 r)) ++ "To" ++ capitalize (snd (sorted2 r))
                  ++ "RelationshipReverseInline"
             else capitalize (snd (sorted2 r)) ++ "To" ++ capitalize (fst (sorted2 r))
                  ++ "RelationshipInline") (map fst (st_inlines st)))) /\
     (inlines = true ->
      forall t v e r, In (t, v) md -> In e (apps v) -> In r rels -> rel_contains t r = true ->
      exists c adm, apps_get_installed_model installed (app_label e) (model e) = Ok c /\
        registry_get (AppKey c) (st_registry st) = Some adm /\
        In (capitalize t ++ "To" ++ capitalize (rel_other t r) ++ "RelationshipInline")
           (adm_inlines adm))).
Proof.
  split.
  - intros. assert (H : from_import settings_module_names admin_settings_imports
                        = Raise ImportError) by reflexivity.
    unfold admin_module. rewrite H. reflexivity.
  - intros md rels inlines generic registry installed st0 st H.
    unfold admin_startup in H. destruct (seqS_ok _ _ _ _ H) as (st1 & H1 & H2).
    assert (Hin : st_inlines st = st_inlines st1).
    { refine (third_party_preserves md rels inlines generic installed
                (fun s => st_inlines s = st_inlines st1) md st1 st _ H2 eq_refl).
      intros a m t s1 s2 Hs E. rewrite <- E.
      exact (proj1 (proj2 (add_velcro_step md rels inlines generic installed _ _ _ _ _ Hs))). }
    split.
    + intros r Hr.
      destruct (relationships_startup_establishes md inlines registry _ _ _ H1 r Hr)
        as (k & Hk & Ha & Hi).
      exists k. split; [exact Hk|]. split.
      * refine (third_party_preserves md rels inlines generic installed
                  (fun s => registry_get (RelKey (rm_name k)) (st_registry s) =
                            Some (mk_admin_class (relationship_class_name r ++ "Admin")
                                    ["GenericAdminModelAdmin"] [] ["order_by"]))
                  md st1 st _ H2 Ha).
        intros a m t s1 s2 Hs E.
        rewrite (add_velcro_preserves_rel md rels inlines generic installed _ _ _ _ _ _ Hs).
        exact E.
      * rewrite Hin. exact Hi.
    + intros HI t v e r Htv He Hr Hc.
      destruct (third_party_establishes md rels inlines generic installed _ _ _ H2 t v e Htv He)
        as (c & Hc' & Hn).
      destruct (Hn HI) as (adm & Ha & Hincl).
      exists c, adm. split; [exact Hc'|]. split; [exact Ha|].
      apply Hincl. apply related_type_inline_in; assumption.
Qed.

Lemma admin_startup_import_error_witness :
  admin_module md_ex rels_ex true true registry_ex installed_ex admin_state_ex
    = Raise ImportError /\
  exists st, admin_startup md_ex rels_ex true true registry_ex installed_ex admin_state_ex
               = Ok st /\
  exists c adm, apps_get_installed_model installed_ex "data" "Data" = Ok c /\
    registry_get (AppKey c) (st_registry st) = Some adm /\
    In "DataToPublicationRelationshipInline" (adm_inlines adm).
Proof.
  split.
  - exact (proj1 admin_startup_import_error md_ex rels_ex true true registry_ex
             installed_ex admin_state_ex).
  - assert (Hst : exists st, admin_startup md_ex rels_ex true true registry_ex installed_ex
                               admin_state_ex = Ok st).
    { exists (match admin_startup md_ex rels_ex true true registry_ex installed_ex
                      admin_state_ex with Ok st => st | Raise _ => admin_state_ex end).
      vm_compute. reflexivity. }
    destruct Hst as [st Hst]. exists st. split; [exact Hst|].
    assert (H1 : In ("data", mk_velcro_type_metadata [entry "data" "Data";
                                                       entry "data" "DataSet"]) md_ex)
      by (right; left; reflexivity).
    assert (H2 : In (entry "data" "Data") [entry "data" "Data"; entry "data" "DataSet"])
      by (left; reflexivity).
    assert (H3 : In ("data", "publication") rels_ex) by (left; reflexivity).
    destruct (proj2 (proj2 admin_startup_import_error md_ex rels_ex true true registry_ex
                       installed_ex admin_state_ex st Hst) eq_refl "data" _ _
                    ("data", "publication") H1 H2 H3 eq_refl)
      as (c & adm & Hc & Ha & Hi).
    exists c, adm. split; [exact Hc|]. split; [exact Ha|]. exact Hi.
Defined.

(** ** Further properties of the code *)

Lemma sorted2_sym (a b : string) : sorted2 (a, b) = sorted2 (b, a).
Proof.
  unfold sorted2.
  destruct (String.leb a b) eqn:H1, (String.leb b a) eqn:H2; try reflexivity.
  - rewrite (String.leb_antisym a b H1 H2). reflexivity.
  - destruct (String.leb_total a b); congruence.
Qed.

(** X1: [get_relationship_class] does not depend on the order of its two
    velcro types. *)
Theorem get_relationship_class_sym (registry : list (string * rel_model))
    (t1 t2 : option string) :
  get_relationship_class registry t1 t2 = get_relationship_class registry t2 t1.
Proof.
  unfold get_relationship_class.
  destruct t1 as [a|], t2 as [b|]; try reflexivity.
  rewrite sorted2_sym. reflexivity.
Qed.

(** X3: When capitalizing the two velcro types of a relationship tuple keeps
    their sorted order, [get_relationship_class] finds a generated model
    under the tuple's class name (model names are compared lower-cased). *)
Theorem get_relationship_class_found (md : metadata) (rels : relationships)
    (registry : list (string * rel_model)) (a b : string) :
  models_startup md rels = Ok registry -> In (a, b) rels ->
  sorted2 (capitalize a, capitalize b) =
    (capitalize (fst (sorted2 (a, b))), capitalize (snd (sorted2 (a, b)))) ->
  exists m, get_relationship_class registry (Some a) (Some b) = Ok m /\
    lower (rm_name m) = lower (relationship_class_name (a, b)) /\
    exists r, In r rels /\ generate_relationship_model md r = Ok m.
Proof.
  intros Hs Hin Hcap.
  destruct (proj2 (models_startup_loop_installed md rels [] registry Hs) (a, b) Hin)
    as (m0 & Hg0 & Hin0).
  destruct (generated_fields md (a, b) m0 Hg0) as (Hn0 & _).
  unfold get_relationship_class. rewrite Hcap.
  assert (Hname : capitalize (fst (sorted2 (a, b))) ++ capitalize (snd (sorted2 (a, b)))
                  ++ "Relationship" = relationship_class_name (a, b))
    by (unfold relationship_class_name; destruct (sorted2 (a, b)); reflexivity).
  cbv beta iota. rewrite Hname. unfold apps_get_model.
  destruct (find (fun '(_, k) => String.eqb (lower (rm_name k))
                                   (lower (relationship_class_name (a, b)))) registry)
    as [[n k]|] eqn:Hf.
  - apply find_some in Hf. destruct Hf as [Hk Hp]. apply String.eqb_eq in Hp.
    exists k. split; [reflexivity|]. split; [exact Hp|].
    destruct (models_startup_generated md rels registry Hs n k Hk) as (r & Hr & Hg).
    eauto.
  - exfalso. apply (find_none _ _ Hf) in Hin0. rewrite Hn0, String.eqb_refl in Hin0.
    discriminate.
Qed.

Lemma get_relationship_class_found_witness :
  exists m, get_relationship_class registry_ex (Some "data") (Some "publication") = Ok m /\
    lower (rm_name m) = lower (relationship_class_name ("data", "publication")).
Proof.
  assert (Hs : models_startup md_ex rels_ex = Ok registry_ex) by reflexivity.
  destruct (get_relationship_class_found md_ex rels_ex registry_ex "data" "publication" Hs
              (or_introl eq_refl) eq_refl) as (m & Hm & Hn & _).
  exists m. split; assumption.
Defined.

Section AdminExtras.

Variable md : metadata.
Variable rels : relationships.
Variable INL : bool.
Variable GEN : bool.
Variable registry : list (string * rel_model).
Variable installed : list model_class.

(** One relationship's steps: import, the inline classes, the admin. *)
Lemma relationships_startup_cons r rs st st' :
  relationships_startup md INL registry (r :: rs) st = Ok st' ->
  exists k st3, apps_get_model registry (relationship_class_name r) = Ok k /\
    registry_get (RelKey (rm_name k)) (st_registry st) = None /\
    st_registry st3 =
      (RelKey (rm_name k), mk_admin_class (relationship_class_name r ++ "Admin")
                             ["GenericAdminModelAdmin"] [] ["order_by"])
      :: st_registry st /\
    relationships_startup md INL registry rs st3 = Ok st'.
Proof.
  simpl. intros H. destruct (seqS_ok _ _ _ _ H) as (st1 & H1 & H2).
  destruct (seqS_ok _ _ _ _ H2) as (st2 & H3 & H4).
  destruct (seqS_ok _ _ _ _ H4) as (st3 & H5 & H6).
  unfold import_relationship_model in H1.
  destruct (apps_get_model registry (relationship_class_name r)) as [k|e] eqn:Hk;
    [|discriminate].
  injection H1 as <-.
  assert (Hm : st_models st2 = (relationship_class_name r, k) :: st_models st /\
               st_registry st2 = st_registry st).
  { destruct INL.
    - destruct (seqS_ok _ _ _ _ H3) as (s & Ha & Hb).
      destruct (generate_inline_model_forward md _ _ _ Ha) as (Ma & Ra & _).
      destruct (generate_inline_model_reverse md _ _ _ Hb) as (Mb & Rb & _).
      rewrite Mb, Ma, Rb, Ra. split; reflexivity.
    - injection H3 as <-. split; reflexivity. }
  destruct Hm as [Hm Hr2].
  unfold generate_and_register_admin_model, admin_register in H5.
  rewrite Hm in H5. simpl in H5. rewrite String.eqb_refl in H5.
  destruct (registry_get (RelKey (rm_name k)) (st_registry st2)) eqn:Hg; [discriminate|].
  injection H5 as <-. exists k. eexists. rewrite Hr2 in Hg, H6.
  split; [reflexivity|]. split; [exact Hg|]. split; [|exact H6]. reflexivity.
Qed.

Lemma relationships_startup_unregistered rs st st' k :
  relationships_startup md INL registry rs st = Ok st' ->
  registry_get (RelKey (rm_name k)) (st_registry st) <> None ->
  forall r, In r rs -> apps_get_model registry (relationship_class_name r) <> Ok k.
Proof.
  revert st. induction rs as [|r0 rs IH]; intros st H Hk r Hr; [destruct Hr|].
  destruct (relationships_startup_cons _ _ _ _ H) as (k0 & st3 & Hk0 & Hn & Hr3 & H').
  destruct Hr as [<-|Hr].
  - rewrite Hk0. intros [= <-]. exact (Hk Hn).
  - apply (IH st3 H'); [|exact Hr]. rewrite Hr3. simpl.
    destruct (String.eqb (rm_name k) (rm_name k0)); [discriminate|exact Hk].
Qed.

Lemma relationships_startup_nodup rs st st' :
  relationships_startup md INL registry rs st = Ok st' ->
  NoDup (map relationship_class_name rs).
Proof.
  revert st. induction rs as [|r rs IH]; intros st H; simpl; [constructor|].
  destruct (relationships_startup_cons _ _ _ _ H) as (k & st3 & Hk & _ & Hr3 & H').
  constructor; [|exact (IH st3 H')].
  intros Hin. apply in_map_iff in Hin. destruct Hin as (r' & Heq & Hr').
  apply (relationships_startup_unregistered rs st3 st' k H') with (r := r');
    [|exact Hr'|rewrite Heq; exact Hk].
  rewrite Hr3. simpl. rewrite String.eqb_refl. discriminate.
Qed.

(** The third-party step keeps the admin's name and read-only fields and
    appends to its inlines. *)
Lemma add_velcro_update app_name model_name t st st' :
  add_velcro_to_third_party_admin md rels INL GEN installed app_name model_name t st
    = Ok st' ->
  exists c orig extra,
    apps_get_installed_model installed app_name model_name = Ok c /\
    registry_get (AppKey c) (st_registry st) = Some orig /\
    st_registry st' =
      (AppKey c, mk_admin_class (adm_name orig)
                   (if GEN then ["GenericAdminModelAdmin"; adm_name orig]
                    else [adm_name orig])
                   (app (adm_inlines orig) extra) (adm_readonly orig))
      :: registry_unregister (AppKey c) (st_registry st).
Proof.
  unfold add_velcro_to_third_party_admin.
  destruct (apps_get_installed_model installed app_name model_name) as [c|e] eqn:Hc;
    [|discriminate].
  destruct (registry_get (AppKey c) (st_registry st)) as [orig|] eqn:Ho; [|discriminate].
  destruct INL.
  - destruct (get_relationship_inlines md rels (st_inlines st) t) as [rel|e]; [|discriminate].
    intros [= <-]. exists c, orig, rel. auto.
  - intros [= <-]. exists c, orig, []. rewrite app_nil_r. auto.
Qed.

Lemma relationships_startup_app rs st st' c :
  relationships_startup md INL registry rs st = Ok st' ->
  registry_get (AppKey c) (st_registry st') = registry_get (AppKey c) (st_registry st).
Proof.
  revert st. induction rs as [|r rs IH]; intros st H.
  - simpl in H. injection H as <-. reflexivity.
  - destruct (relationships_startup_cons _ _ _ _ H) as (k & st3 & _ & _ & Hr3 & H').
    rewrite (IH st3 H'), Hr3. reflexivity.
Qed.



End AdminExtras.

(** X4: The admin start-up only succeeds when no two relationships share a
    model class name: the second registration of the same generated model
    raises [AlreadyRegistered]. *)
Theorem admin_startup_relationship_names_nodup md rels INL GEN registry installed st st' :
  admin_startup md rels INL GEN registry installed st = Ok st' ->
  NoDup (map relationship_class_name rels).
Proof.
  unfold admin_startup. intros H. destruct (seqS_ok _ _ _ _ H) as (st1 & H1 & _).
  exact (relationships_startup_nodup md INL registry _ _ _ H1).
Qed.

Lemma admin_startup_relationship_names_nodup_witness :
  exists st', admin_startup md_ex rels_ex true true registry_ex installed_ex admin_state_ex
                = Ok st' /\ NoDup (map relationship_class_name rels_ex).
Proof.
  assert (Hst : exists st, admin_startup md_ex rels_ex true true registry_ex installed_ex
                             admin_state_ex = Ok st).
  { exists (match admin_startup md_ex rels_ex true true registry_ex installed_ex
                    admin_state_ex with Ok st => st | Raise _ => admin_state_ex end).
    vm_compute. reflexivity. }
  destruct Hst as [st Hst]. exists st. split; [exact Hst|].
  exact (admin_startup_relationship_names_nodup md_ex rels_ex true true registry_ex
           installed_ex admin_state_ex st Hst).
Defined.

(** X5: A successful admin start-up keeps every model admin registered before
    it: the same class name and read-only fields, its inlines extended at
    the end. *)
Theorem admin_startup_extends_app_admins md rels INL GEN registry installed st st' :
  admin_startup md rels INL GEN registry installed st = Ok st' ->
  forall c adm, registry_get (AppKey c) (st_registry st) = Some adm ->
  exists adm' extra, registry_get (AppKey c) (st_registry st') = Some adm' /\
    adm_name adm' = adm_name adm /\ adm_readonly adm' = adm_readonly adm /\
    adm_inlines adm' = app (adm_inlines adm) extra.
Proof.
  unfold admin_startup. intros H c adm Ha.
  destruct (seqS_ok _ _ _ _ H) as (st1 & H1 & H2).
  rewrite <- (relationships_startup_app md INL registry _ _ _ c H1) in Ha.
  refine (third_party_preserves md rels INL GEN installed
            (fun s => exists adm' extra, registry_get (AppKey c) (st_registry s) = Some adm' /\
               adm_name adm' = adm_name adm /\ adm_readonly adm' = adm_readonly adm /\
               adm_inlines adm' = app (adm_inlines adm) extra) md st1 st' _ H2 _).
  - intros a m t s1 s2 Hs (a1 & x1 & Hg & Hn & Hro & Hi).
    destruct (add_velcro_update md rels INL GEN installed _ _ _ _ _ Hs)
      as (c0 & orig & extra & _ & Ho & Hr).
    rewrite Hr. cbn [registry_get].
    destruct (model_key_eqb (AppKey c) (AppKey c0)) eqn:E.
    + apply model_key_eqb_eq in E. injection E as ->. rewrite Hg in Ho. injection Ho as <-.
      exists (mk_admin_class (adm_name a1) (if GEN then ["GenericAdminModelAdmin"; adm_name a1]
                                           else [adm_name a1])
                (app (adm_inlines a1) extra) (adm_readonly a1)), (app x1 extra).
      simpl. rewrite Hi, app_assoc. auto.
    + rewrite registry_get_unregister_other by exact E. exists a1, x1. auto.
  - exists adm, []. rewrite app_nil_r. auto.
Qed.

Lemma admin_startup_extends_app_admins_witness :
  exists st', admin_startup md_ex rels_ex true true registry_ex installed_ex admin_state_ex
                = Ok st' /\
  exists adm' extra,
    registry_get (AppKey data_cls) (st_registry st') = Some adm' /\
    adm_name adm' = "DataAdmin" /\ adm_readonly adm' = [] /\
    adm_inlines adm' = app [] extra.
Proof.
  assert (Hst : exists st, admin_startup md_ex rels_ex true true registry_ex installed_ex
                             admin_state_ex = Ok st).
  { exists (match admin_startup md_ex rels_ex true true registry_ex installed_ex
                    admin_state_ex with Ok st => st | Raise _ => admin_state_ex end).
    vm_compute. reflexivity. }
  destruct Hst as [st Hst]. exists st. split; [exact Hst|].
  exact (admin_startup_extends_app_admins md_ex rels_ex true true registry_ex installed_ex
           admin_state_ex st Hst data_cls (mk_admin_class "DataAdmin" ["ModelAdmin"] [] [])
           eq_refl).
Defined.



Lemma get_related_content_outcome md rels registry mco os object rts limit d :
  models_startup md rels = Ok registry ->
  get_related_content md rels registry mco os object rts limit d =
  match get_velcro_type md (obj_class object) with
  | None => (Ok [], d)
  | Some t =>
      match fst (get_or_validate_related_types md rels t (Some rts)) with
      | [] => (Ok [], d)
      | rt :: _ =>
          (Raise (match get_relationship_class registry (Some t) (Some rt) with
                  | Ok _ => FieldError
                  | Raise e => e
                  end), d)
      end
  end.
Proof.
  intros Hs. unfold get_related_content.
  destruct (get_velcro_type md (obj_class object)) as [t|]; [|reflexivity].
  destruct (fst (get_or_validate_related_types md rels t (Some rts))) as [|rt rts'];
    [reflexivity|].
  cbn [related_content_loop]. unfold bind at 1 2, lift.
  destruct (get_relationship_class registry (Some t) (Some rt)) as [k|e] eqn:Hk;
    [|reflexivity].
  destruct (get_relationship_class_generated md rels registry _ _ k Hs Hk) as [r Hr].
  destruct (object_id_keys_unresolved md r k Hr) as (Ht & Ho1 & _ & _).
  unfold ret. destruct (String.eqb t rt).
  - unfold _get_related_content_sametype, bind, orm_filter. cbn -[resolves].
    rewrite Ho1, andb_false_r. reflexivity.
  - unfold _get_related_content_difftype, bind, orm_filter. cbn -[resolves].
    rewrite Ht. reflexivity.
Qed.

(** X7: With the relationship classes generated by [models._startup], the
    related-content query never returns objects and never writes the
    database: it returns the empty dict when the object has no velcro type
    or no related type is selected, and raises otherwise. *)
Theorem get_related_content_generated md rels registry mco os object rts limit d :
  models_startup md rels = Ok registry ->
  snd (get_related_content md rels registry mco os object rts limit d) = d /\
  (forall l, fst (get_related_content md rels registry mco os object rts limit d) = Ok l ->
             l = []) /\
  (forall t, get_velcro_type md (obj_class object) = Some t ->
     fst (get_or_validate_related_types md rels t (Some rts)) <> [] ->
     exists e, fst (get_related_content md rels registry mco os object rts limit d)
               = Raise e).
Proof.
  intros Hs. rewrite (get_related_content_outcome md rels registry mco os object rts limit d Hs).
  destruct (get_velcro_type md (obj_class object)) as [t|].
  - destruct (fst (get_or_validate_related_types md rels t (Some rts))) as [|rt rts'] eqn:E.
    + split; [reflexivity|]. split; [intros l [= <-]; reflexivity|].
      intros t' [= <-] Hne. rewrite E in Hne. contradiction.
    + split; [reflexivity|]. split; [discriminate|]. intros t' _ _. eexists. reflexivity.
  - split; [reflexivity|]. split; [intros l [= <-]; reflexivity|]. discriminate.
Qed.

Lemma get_related_content_generated_witness :
  models_startup md_ex rels_ex = Ok registry_ex /\
  snd (get_related_content md_ex rels_ex registry_ex model_class_of_ex object_str_ex
         (mk_obj pub_cls 1) [] None empty_db) = empty_db.
Proof.
  assert (Hs : models_startup md_ex rels_ex = Ok registry_ex) by (vm_compute; reflexivity).
  split; [exact Hs|].
  exact (proj1 (get_related_content_generated md_ex rels_ex registry_ex model_class_of_ex
                  object_str_ex (mk_obj pub_cls 1) [] None empty_db Hs)).
Defined.

(** X8: With the relationship classes generated by [models._startup],
    [has_related_content] never answers [True] and never writes the
    database. *)
Theorem has_related_content_never_true md rels registry mco os object rts d :
  models_startup md rels = Ok registry ->
  snd (has_related_content md rels registry mco os object rts d) = d /\
  fst (has_related_content md rels registry mco os object rts d) <> Ok true.
Proof.
  intros Hs. unfold has_related_content, bind.
  rewrite (get_related_content_outcome md rels registry mco os object rts (Some 1) d Hs).
  destruct (get_velcro_type md (obj_class object)) as [t|].
  - destruct (fst (get_or_validate_related_types md rels t (Some rts))).
    + split; [reflexivity|]. discriminate.
    + split; [reflexivity|]. discriminate.
  - split; [reflexivity|]. discriminate.
Qed.

Lemma has_related_content_never_true_witness :
  models_startup md_ex rels_ex = Ok registry_ex /\
  fst (has_related_content md_ex rels_ex registry_ex model_class_of_ex object_str_ex
         (mk_obj data_cls 1) [] empty_db) <> Ok true.
Proof.
  assert (Hs : models_startup md_ex rels_ex = Ok registry_ex) by (vm_compute; reflexivity).
  split; [exact Hs|].
  exact (proj2 (has_related_content_never_true md_ex rels_ex registry_ex model_class_of_ex
                  object_str_ex (mk_obj data_cls 1) [] empty_db Hs)).
Defined.

Lemma dict_get_nodup_in {A} (k : string) (v : A) (l : list (string * A)) :
  NoDup (map fst l) -> In (k, v) l -> dict_get k l = Some v.
Proof.
  induction l as [|[k' v'] l IH]; simpl; [intros _ []|].
  intros Hnd Hin. inversion Hnd as [|x xs Hnin Hnd' Heq]. subst.
  destruct Hin as [[= <- <-]|Hin].
  - rewrite String.eqb_refl. reflexivity.
  - destruct (String.eqb k k') eqn:E.
    + apply String.eqb_eq in E. subst k'. exfalso. apply Hnin.
      apply in_map_iff. exists (k, v). auto.
    + exact (IH Hnd' Hin).
Qed.

Lemma _find_dict_in_list_first (l : list app_entry) (m : string) :
  (exists e, In e l /\ model e = m) ->
  exists pre e post, l = app pre (e :: post) /\ model e = m /\
    Forall (fun e' => model e' <> m) pre /\ _find_dict_in_list l model m = Some e.
Proof.
  induction l as [|e0 l IH]; simpl; [intros (e & [] & _)|].
  intros (e & He & Hm).
  destruct (String.eqb (model e0) m) eqn:E.
  - apply String.eqb_eq in E. exists [], e0, l. auto.
  - destruct He as [<-|He]; [apply String.eqb_neq in E; contradiction|].
    destruct (IH (ex_intro _ e (conj He Hm))) as (pre & e' & post & -> & Hm' & Hpre & Hf).
    exists (e0 :: pre), e', post. split; [reflexivity|]. split; [exact Hm'|].
    split; [|exact Hf]. constructor; [apply String.eqb_neq; exact E|exact Hpre].
Qed.

Lemma _find_dict_in_list_none (l : list app_entry) (m : string) :
  Forall (fun e => model e <> m) l -> _find_dict_in_list l model m = None.
Proof.
  induction 1 as [|e l He _ IH]; simpl; [reflexivity|].
  destruct (String.eqb (model e) m) eqn:E; [apply String.eqb_eq in E; contradiction|].
  exact IH.
Qed.

(** X9: [get_url_of_object(object)] for an object of a listed model reverses
    the view of the first [apps] entry of its velcro type whose [model] is
    the object's class name, with the entry's [url_args] read off the
    object ([app_label] is not compared). *)
Theorem get_url_of_object_listed md reverse getattr_obj object t :
  NoDup (map fst md) ->
  get_velcro_type md (obj_class object) = Some t ->
  exists v pre e post, dict_get t md = Some v /\ apps v = app pre (e :: post) /\
    model e = mc_object_name (obj_class object) /\
    Forall (fun e' => model e' <> mc_object_name (obj_class object)) pre /\
    get_url_of_object md reverse getattr_obj object None =
      match map_result (getattr_obj object) (url_args e) with
      | Ok args => reverse (view e) args
      | Raise err => Raise err
      end.
Proof.
  intros Hnd Ht. unfold get_url_of_object. rewrite Ht.
  unfold get_velcro_type in Ht.
  destruct (first_velcro_type_some _ _ _ _ Ht) as (v & Hin & He).
  apply (Permutation_in _ (sorted_by_perm _ _)) in Hin.
  rewrite (dict_get_nodup_in t v md Hnd Hin).
  apply existsb_exists in He. destruct He as (e0 & He0 & Hm).
  unfold entry_matches in Hm. apply andb_true_iff in Hm as [_ Hm].
  apply String.eqb_eq in Hm.
  destruct (_find_dict_in_list_first (apps v) (mc_object_name (obj_class object))
              (ex_intro _ e0 (conj He0 Hm))) as (pre & e & post & Hl & Hme & Hpre & Hf).
  exists v, pre, e, post. rewrite Hf. auto.
Qed.

Lemma get_url_of_object_listed_witness :
  NoDup (map fst md_ex) /\ get_velcro_type md_ex data_cls = Some "data" /\
  exists v pre e post, dict_get "data" md_ex = Some v /\ apps v = app pre (e :: post) /\
    model e = "Data" /\ Forall (fun e' => model e' <> "Data") pre /\
    get_url_of_object md_ex (fun view _ => Ok view) (fun _ a => Ok a) (mk_obj data_cls 1) None
      = match map_result (fun a => Ok a) (url_args e) with
        | Ok args => (fun view (_ : list string) => Ok view) (view e) args
        | Raise err => Raise err
        end.
Proof.
  assert (Hnd : NoDup (map fst md_ex)).
  { simpl. constructor; [simpl; intros [H|[]]; discriminate H|].
    constructor; [intros []|constructor]. }
  assert (Ht : get_velcro_type md_ex data_cls = Some "data") by reflexivity.
  split; [exact Hnd|]. split; [exact Ht|].
  exact (get_url_of_object_listed md_ex (fun view _ => Ok view) (fun _ a => Ok a)
           (mk_obj data_cls 1) "data" Hnd Ht).
Defined.

(** X10: [get_url_of_object] raises [KeyError] for an object of an unlisted
    model when no velcro type is given, and for a velcro type that is not
    a key of [VELCRO_METADATA]; it raises [TypeError] when the given
    velcro type lists no model of the object's class name. *)
Theorem get_url_of_object_errors md reverse getattr_obj object t :
  (get_velcro_type md (obj_class object) = None ->
   get_url_of_object md reverse getattr_obj object None = Raise KeyError) /\
  (dict_get t md = None ->
   get_url_of_object md reverse getattr_obj object (Some t) = Raise KeyError) /\
  (forall v, dict_get t md = Some v ->
   Forall (fun e => model e <> mc_object_name (obj_class object)) (apps v) ->
   get_url_of_object md reverse getattr_obj object (Some t) = Raise TypeError).
Proof.
  unfold get_url_of_object. split; [intros H; rewrite H; reflexivity|].
  split; [intros H; rewrite H; reflexivity|].
  intros v Hv Hn. rewrite Hv, (_find_dict_in_list_none _ _ Hn). reflexivity.
Qed.

Lemma model_class_eqb_refl (c : model_class) : model_class_eqb c c = true.
Proof. unfold model_class_eqb. rewrite !String.eqb_refl. reflexivity. Qed.

Lemma string_suffix_cancel (a b x : string) : a ++ x = b ++ x -> a = b.
Proof.
  revert b. induction a as [|c a IH]; intros [|c' b] H; simpl in H.
  - reflexivity.
  - apply (f_equal String.length) in H. simpl in H. rewrite string_length_append in H. lia.
  - apply (f_equal String.length) in H. simpl in H. rewrite string_length_append in H. lia.
  - injection H as -> H. rewrite (IH b H). reflexivity.
Qed.

Lemma velcro_methods_for_shape rels t n m :
  In (n, m) (velcro_methods_for rels t) ->
  In (n, m) [("add_velcro_content", AddVelcroContent);
             ("get_velcro_content", GetVelcroContent);
             ("get_velcro_content_sametype", GetVelcroContentSametype);
             ("remove_velcro_content", RemoveVelcroContent);
             ("velcro_url", VelcroUrl)] \/
  (exists rt, n = "get_velcro_" ++ rt ++ "_content" /\ m = GetVelcroContentFor rt) \/
  (exists rt, n = "get_velcro_" ++ rt ++ "_content_sametype" /\
              m = GetVelcroContentSametypeFor rt).
Proof.
  unfold velcro_methods_for. intros H. apply in_app_or in H. destruct H as [H|H]; [auto|].
  apply in_flat_map in H. destruct H as (rt & _ & [[= <- <-]|[[= <- <-]|[]]]).
  - right. left. exists rt. auto.
  - right. right. exists rt. auto.
Qed.

(** Distinct names of the fixed and per-related-type methods. *)
Ltac method_name_clash H :=
  first [ discriminate H
        | apply (f_equal string_rev) in H; rewrite ?string_rev_app in H; simpl in H;
          discriminate H
        | apply (f_equal String.length) in H; rewrite ?string_length_append in H;
          simpl in H; lia ].

(** A method name determines the method bound under it. *)
Lemma velcro_method_name_determines rels1 t1 rels2 t2 n m1 m2 :
  In (n, m1) (velcro_methods_for rels1 t1) -> In (n, m2) (velcro_methods_for rels2 t2) ->
  m1 = m2.
Proof.
  intros H1 H2.
  destruct (velcro_methods_for_shape _ _ _ _ H1) as
    [F1|[(r1 & -> & ->)|(r1 & -> & ->)]];
  destruct (velcro_methods_for_shape _ _ _ _ H2) as
    [F2|[(r2 & Hn & ->)|(r2 & Hn & ->)]];
  try (destruct F1 as [F1|[F1|[F1|[F1|[F1|[]]]]]]; injection F1 as <- <-);
  try (destruct F2 as [F2|[F2|[F2|[F2|[F2|[]]]]]]; apply pair_equal_spec in F2 as [F2 <-]);
  try reflexivity.
  all: try (apply string_prefix_cancel, string_suffix_cancel in Hn; subst; reflexivity).
  all: exfalso.
  all: try (apply string_prefix_cancel in Hn).
  all: first [method_name_clash Hn | method_name_clash F2
             | symmetry in Hn; method_name_clash Hn].
Qed.

Lemma getattr_setattrs_keep c c' n m l a :
  getattr c n a = Some m -> (forall m', In (n, m') l -> m' = m) ->
  getattr c n (setattrs c' l a) = Some m.
Proof.
  unfold setattrs. revert a. induction l as [|[n' m'] l IH]; simpl; intros a Ha Hl;
    [exact Ha|].
  apply IH; [|intros m'' Hin; apply Hl; right; exact Hin].
  unfold setattr. simpl.
  destruct (model_class_eqb c c' && String.eqb n n') eqn:E; [|exact Ha].
  apply andb_true_iff in E as [_ E]. apply String.eqb_eq in E. subst n'.
  f_equal. apply Hl. left. reflexivity.
Qed.

Lemma getattr_setattrs_in c n m l a :
  In (n, m) l -> (forall m', In (n, m') l -> m' = m) ->
  getattr c n (setattrs c l a) = Some m.
Proof.
  unfold setattrs. revert a. induction l as [|[n' m'] l IH]; simpl; [intros _ []|].
  intros a [[= -> ->]|Hin] Hl.
  - apply getattr_setattrs_keep; [|intros m'' Hin; apply Hl; right; exact Hin].
    unfold setattr. simpl. rewrite model_class_eqb_refl, String.eqb_refl. reflexivity.
  - apply IH; [exact Hin|intros m'' Hin'; apply Hl; right; exact Hin'].
Qed.

Lemma fold_result_raise {A B} (g : A -> B -> result A) l err :
  fold_left (fun r x => match r with Ok a => g a x | Raise err => Raise err end) l
    (Raise err) = Raise err.
Proof. induction l; simpl; auto. Qed.

Lemma fold_result_ok {A B} (g : A -> B -> result A) (P : A -> Prop) l a a' :
  fold_left (fun r x => match r with Ok a => g a x | Raise err => Raise err end) l (Ok a)
    = Ok a' ->
  (forall a0 x a1, In x l -> g a0 x = Ok a1 -> P a0 -> P a1) -> P a -> P a'.
Proof.
  revert a. induction l as [|x l IH]; simpl; intros a H HP Ha.
  - injection H as <-. exact Ha.
  - destruct (g a x) as [a1|err] eqn:Eg; [|rewrite fold_result_raise in H; discriminate].
    apply (IH a1 H); [intros a0 y a2 Hy; apply HP; right; exact Hy|].
    exact (HP a x a1 (or_introl eq_refl) Eg Ha).
Qed.

Lemma fold_result_step {A B} (g : A -> B -> result A) (Q : A -> Prop) l a a' x :
  fold_left (fun r x => match r with Ok a => g a x | Raise err => Raise err end) l (Ok a)
    = Ok a' ->
  In x l ->
  (forall a0 a1, g a0 x = Ok a1 -> Q a1) ->
  (forall a0 y a1, In y l -> g a0 y = Ok a1 -> Q a0 -> Q a1) -> Q a'.
Proof.
  revert a. induction l as [|y l IH]; simpl; intros a H Hx HQ HP; [destruct Hx|].
  destruct (g a y) as [a1|err] eqn:Eg; [|rewrite fold_result_raise in H; discriminate].
  destruct Hx as [<-|Hx].
  - apply (fold_result_ok g Q l a1 a' H); [|exact (HQ a a1 Eg)].
    intros a0 z a2 Hz. apply HP. right. exact Hz.
  - apply (IH a1 H Hx HQ). intros a0 z a2 Hz. apply HP. right. exact Hz.
Qed.

Lemma fold_result_errors {A B} (g : A -> B -> result A) l a :
  (forall x, In x l -> forall a0, exists a1, g a0 x = Ok a1) ->
  exists a', fold_left (fun r x => match r with Ok a => g a x | Raise err => Raise err end)
               l (Ok a) = Ok a'.
Proof.
  revert a. induction l as [|x l IH]; simpl; intros a Hg; [eauto|].
  destruct (Hg x (or_introl eq_refl) a) as [a1 ->].
  apply IH. intros y Hy. apply Hg. right. exact Hy.
Qed.

Lemma fold_result_raise_from {A B} (g : A -> B -> result A) l a err :
  fold_left (fun r x => match r with Ok a => g a x | Raise err => Raise err end) l (Ok a)
    = Raise err ->
  exists x a0, In x l /\ g a0 x = Raise err.
Proof.
  revert a. induction l as [|x l IH]; simpl; intros a H; [discriminate|].
  destruct (g a x) as [a1|e] eqn:Eg.
  - destruct (IH a1 H) as (y & a0 & Hy & Hg). exists y, a0. auto.
  - rewrite fold_result_raise in H. injection H as ->. exists x, a. auto.
Qed.

Lemma fold_result_ok_inv {A B} (g : A -> B -> result A) l a a' :
  fold_left (fun r x => match r with Ok a => g a x | Raise err => Raise err end) l (Ok a)
    = Ok a' ->
  forall x, In x l -> exists a0 a1, g a0 x = Ok a1.
Proof.
  revert a. induction l as [|y l IH]; simpl; intros a H x Hx; [destruct Hx|].
  destruct (g a y) as [a1|err] eqn:Eg; [|rewrite fold_result_raise in H; discriminate].
  destruct Hx as [<-|Hx]; [exists a, a1; exact Eg|exact (IH a1 H x Hx)].
Qed.

Lemma apps_get_installed_model_raise installed a m err :
  apps_get_installed_model installed a m = Raise err -> err = LookupError.
Proof.
  unfold apps_get_installed_model. destruct (find _ installed); [discriminate|].
  intros [= <-]. reflexivity.
Qed.

Lemma utils_startup_loop_keep rels installed items c n m a a' :
  utils_startup_loop rels installed items a = Ok a' ->
  (forall c' t' b, getattr c n b = Some m ->
     getattr c n (setattrs c' (velcro_methods_for rels t') b) = Some m) ->
  getattr c n a = Some m -> getattr c n a' = Some m.
Proof.
  intros H Hkeep. revert a H.
  induction items as [|[t v] items IH]; cbn [utils_startup_loop]; intros a H Ha.
  - injection H as <-. exact Ha.
  - destruct (fold_left _ (apps v) (Ok a)) as [a1|err] eqn:Ef; [|discriminate].
    apply (IH a1 H).
    apply (fold_result_ok _ (fun b => getattr c n b = Some m) _ _ _ Ef); [|exact Ha].
    intros a0 y a2 _. cbv beta.
    destruct (apps_get_installed_model installed (app_label y) (model y)) as [c'|];
      [|discriminate]. intros [= <-]. apply Hkeep.
Qed.

(** X11: After [utils._startup] with [VELCRO_METHODS] on, every model listed in
    [VELCRO_METADATA] has each method of its velcro type bound under its
    name: the five fixed ones and, for each related type, its
    [get_velcro_<type>_content] and [get_velcro_<type>_content_sametype]. *)
Theorem utils_startup_binds_methods md rels installed a a' :
  utils_startup true md rels installed a = Ok a' ->
  forall t v e c, In (t, v) md -> In e (apps v) ->
  apps_get_installed_model installed (app_label e) (model e) = Ok c ->
  forall n m, In (n, m) (velcro_methods_for rels t) -> getattr c n a' = Some m.
Proof.
  intros H t v e c Htv He Hc n m Hnm. unfold utils_startup in H. cbn [negb] in H.
  assert (Hkeep : forall c' t' b, getattr c n b = Some m ->
                  getattr c n (setattrs c' (velcro_methods_for rels t') b) = Some m).
  { intros c' t' b Hb. apply getattr_setattrs_keep; [exact Hb|].
    intros m' Hm'. exact (velcro_method_name_determines _ _ _ _ _ _ _ Hm' Hnm). }
  revert a H. induction md as [|[t0 v0] md IH]; [destruct Htv|].
  intros a H. cbn [utils_startup_loop] in H.
  destruct (fold_left _ (apps v0) (Ok a)) as [a1|err] eqn:Ef; [|discriminate].
  destruct Htv as [[= <- <-]|Htv]; [|exact (IH Htv a1 H)].
  apply (utils_startup_loop_keep rels installed md c n m a1 a' H Hkeep).
  apply (fold_result_step _ (fun b => getattr c n b = Some m) _ _ _ e Ef He).
  - intros a0 a2. rewrite Hc. cbv beta iota. intros [= <-].
    apply (getattr_setattrs_in c n m (velcro_methods_for rels t0)); [exact Hnm|].
    intros m' Hm'. exact (velcro_method_name_determines _ _ _ _ _ _ _ Hm' Hnm).
  - intros a0 y a2 _. cbv beta.
    destruct (apps_get_installed_model installed (app_label y) (model y)) as [c'|];
      [|discriminate]. intros [= <-]. apply Hkeep.
Qed.

Lemma utils_startup_binds_methods_witness :
  exists a', utils_startup true md_ex rels_ex installed_ex [] = Ok a' /\
  getattr data_cls "get_velcro_publication_content" a' =
    Some (GetVelcroContentFor "publication").
Proof.
  assert (Hs : exists a', utils_startup true md_ex rels_ex installed_ex [] = Ok a').
  { exists (match utils_startup true md_ex rels_ex installed_ex [] with
            | Ok a' => a' | Raise _ => [] end).
    vm_compute. reflexivity. }
  destruct Hs as [a' Hs]. exists a'. split; [exact Hs|].
  refine (utils_startup_binds_methods md_ex rels_ex installed_ex [] a' Hs "data"
            (mk_velcro_type_metadata [entry "data" "Data"; entry "data" "DataSet"])
            (entry "data" "Data") data_cls _ _ _ _ _ _).
  - right. left. reflexivity.
  - left. reflexivity.
  - reflexivity.
  - vm_compute. right. right. right. right. right. left. reflexivity.
Defined.

(** X12: [utils._startup] does nothing when [VELCRO_METHODS] is off; otherwise
    it succeeds exactly when every model listed in [VELCRO_METADATA] is
    installed, and its only error is the [LookupError] of
    [apps.get_model]. *)
Theorem utils_startup_lookup md rels installed a :
  utils_startup false md rels installed a = Ok a /\
  (forall err, utils_startup true md rels installed a = Raise err -> err = LookupError) /\
  ((exists a', utils_startup true md rels installed a = Ok a') <->
   (forall t v e, In (t, v) md -> In e (apps v) ->
      exists c, apps_get_installed_model installed (app_label e) (model e) = Ok c)).
Proof.
  split; [reflexivity|]. unfold utils_startup. cbn [negb].
  split.
  - revert a. induction md as [|[t v] md IH]; intros a; cbn [utils_startup_loop];
      [discriminate|].
    destruct (fold_left _ (apps v) (Ok a)) as [a1|e] eqn:Ef; [exact (IH a1)|].
    intros err [= <-].
    destruct (fold_result_raise_from _ _ _ _ Ef) as (x & a0 & _ & Hg). cbv beta in Hg.
    destruct (apps_get_installed_model installed (app_label x) (model x)) as [c|e'] eqn:Ec;
      [discriminate|].
    injection Hg as <-. exact (apps_get_installed_model_raise _ _ _ _ Ec).
  - split.
    + intros [a' H]. revert a H. induction md as [|[t v] md IH]; intros a H;
        [intros t v e []|].
      cbn [utils_startup_loop] in H.
      destruct (fold_left _ (apps v) (Ok a)) as [a1|err] eqn:Ef; [|discriminate].
      intros t' v' e [[= <- <-]|Hin] He; [|exact (IH a1 H t' v' e Hin He)].
      destruct (fold_result_ok_inv _ _ _ _ Ef e He) as (a0 & a2 & Hg). cbv beta in Hg.
      destruct (apps_get_installed_model installed (app_label e) (model e)) as [c|err];
        [exists c; reflexivity|discriminate].
    + intros Hall. revert a. induction md as [|[t v] md IH]; intros a;
        [exists a; reflexivity|].
      cbn [utils_startup_loop].
      destruct (fold_result_errors
                  (fun a0 e => match apps_get_installed_model installed (app_label e) (model e)
                               with
                               | Ok c => Ok (setattrs c (velcro_methods_for rels t) a0)
                               | Raise err => Raise err
                               end) (apps v) a) as [a1 Ha1].
      { intros e He a0. destruct (Hall t v e (or_introl eq_refl) He) as [c ->].
        eexists. reflexivity. }
      rewrite Ha1. apply IH. intros t' v' e Hin He. exact (Hall t' v' e (or_intror Hin) He).
Qed.

Lemma get_related_content_typed_outcome md rels registry mco os object rts limit vt d :
  models_startup md rels = Ok registry ->
  get_related_content_typed md rels registry mco os object rts limit vt d = (Ok [], d) \/
  exists e, get_related_content_typed md rels registry mco os object rts limit vt d
            = (Raise e, d).
Proof.
  intros Hs. unfold get_related_content_typed.
  destruct (match vt with Some t => Some t | None => _ end) as [t|]; [|left; reflexivity].
  destruct (fst (get_or_validate_related_types md rels t (Some rts))) as [|rt rts'];
    [left; reflexivity|].
  right. cbn [related_content_loop]. unfold bind at 1 2, lift.
  destruct (get_relationship_class registry (Some t) (Some rt)) as [k|e] eqn:Hk;
    [|exists e; reflexivity].
  exists FieldError.
  destruct (get_relationship_class_generated md rels registry _ _ k Hs Hk) as [r Hr].
  destruct (object_id_keys_unresolved md r k Hr) as (Ht & Ho1 & _ & _).
  unfold ret. destruct (String.eqb t rt).
  - unfold _get_related_content_sametype, bind, orm_filter. cbn -[resolves].
    rewrite Ho1, andb_false_r. reflexivity.
  - unfold _get_related_content_difftype, bind, orm_filter. cbn -[resolves].
    rewrite Ht. reflexivity.
Qed.

(** X13: With the relationship classes generated by [models._startup],
    [get_related_content_sametype] never returns objects and never writes
    the database: its first [get_related_content] call returns only empty
    lists or raises. *)
Theorem get_related_content_sametype_generated md rels registry mco os set_list
    object rts vt d :
  models_startup md rels = Ok registry ->
  set_list [] = [] ->
  get_related_content_sametype md rels registry mco os set_list object rts vt d = (Ok [], d) \/
  exists e, get_related_content_sametype md rels registry mco os set_list object rts vt d
            = (Raise e, d).
Proof.
  intros Hs Hset. unfold get_related_content_sametype.
  destruct (match vt with Some t => Some t | None => _ end) as [t|]; [|left; reflexivity].
  unfold bind.
  destruct (get_related_content_typed_outcome md rels registry mco os object
              (fst (get_or_validate_related_types md rels t (Some rts))) None (Some t) d Hs)
    as [-> | (e & ->)]; [|right; exists e; reflexivity].
  left. cbn [sametype_collect]. unfold ret. rewrite Hset. reflexivity.
Qed.

Lemma get_related_content_sametype_generated_witness :
  models_startup md_ex rels_ex = Ok registry_ex /\ (fun l : list obj => l) [] = [] /\
  (get_related_content_sametype md_ex rels_ex registry_ex model_class_of_ex object_str_ex
     (fun l => l) (mk_obj pub_cls 1) [] None empty_db = (Ok [], empty_db) \/
   exists e, get_related_content_sametype md_ex rels_ex registry_ex model_class_of_ex
               object_str_ex (fun l => l) (mk_obj pub_cls 1) [] None empty_db
             = (Raise e, empty_db)).
Proof.
  assert (Hs : models_startup md_ex rels_ex = Ok registry_ex) by (vm_compute; reflexivity).
  split; [exact Hs|]. split; [reflexivity|].
  exact (get_related_content_sametype_generated md_ex rels_ex registry_ex model_class_of_ex
           object_str_ex (fun l => l) (mk_obj pub_cls 1) [] None empty_db Hs eq_refl).
Defined.

(** X14: [get_all_velcro_types] lists the keys of [VELCRO_METADATA] in sorted
    order, and [is_valid_velcro_type] accepts exactly the types it lists. *)
Theorem get_all_velcro_types_sorted md :
  Sorted (fun a b => String.leb a b = true) (get_all_velcro_types md) /\
  Permutation (get_all_velcro_types md) (map fst md) /\
  (forall t, is_valid_velcro_type md t = true <-> In t (get_all_velcro_types md)).
Proof.
  unfold get_all_velcro_types, sorted_strings.
  split; [exact (sorted_by_sorted String.leb string_leb_total_false _)|].
  split; [exact (sorted_by_perm String.leb _)|].
  intros t. unfold is_valid_velcro_type. rewrite mem_In. split; intros H.
  - exact (Permutation_in _ (Permutation_sym (sorted_by_perm String.leb _)) H).
  - exact (Permutation_in _ (sorted_by_perm String.leb _) H).
Qed.

Lemma dict_get_in {A} (k : string) (v : A) (l : list (string * A)) :
  dict_get k l = Some v -> In (k, v) l.
Proof.
  induction l as [|[k' v'] l IH]; simpl; [discriminate|].
  destruct (String.eqb k k') eqn:E.
  - apply String.eqb_eq in E. subst k'. intros [= ->]. left. reflexivity.
  - intros H. right. exact (IH H).
Qed.

Section InlineFields.

Variable md : metadata.
Variable rels : relationships.
Variable registry : list (string * rel_model).
Hypothesis registry_generated : models_startup md rels = Ok registry.

Local Abbreviation models_generated st :=
  (forall n k, In (n, k) (st_models st) -> exists r, generate_relationship_model md r = Ok k).

Local Abbreviation inline_unresolved x :=
  (exists r k, generate_relationship_model md r = Ok k /\ in_model (snd x) = rm_name k /\
               resolves k (in_ct_fk_field (snd x)) = false).

Lemma import_relationship_model_generated r st st1 :
  import_relationship_model registry r st = Ok st1 ->
  models_generated st -> models_generated st1 /\ st_inlines st1 = st_inlines st.
Proof.
  unfold import_relationship_model.
  destruct (apps_get_model registry (relationship_class_name r)) as [k|e] eqn:Hk;
    [|discriminate].
  intros [= <-] Hm. split; [|reflexivity].
  intros n k' [[= <- <-]|Hin]; [|exact (Hm n k' Hin)].
  destruct (apps_get_model_in _ _ _ Hk) as [n' Hin].
  destruct (models_startup_generated md rels registry registry_generated n' k Hin)
    as (r' & _ & Hr'). eauto.
Qed.

Lemma generate_inline_model_unresolved r rev st st1 :
  generate_inline_model md r rev st = Ok st1 -> models_generated st ->
  st_models st1 = st_models st /\
  forall x, In x (st_inlines st1) -> In x (st_inlines st) \/ inline_unresolved x.
Proof.
  unfold generate_inline_model.
  destruct (if rev then sorted2_reverse r else sorted2 r) as [o1 o2].
  destruct (dict_get _ (st_models st)) as [k|] eqn:Hd; [|discriminate].
  destruct (dict_get o2 md); [|discriminate].
  intros H Hm. apply dict_get_in in Hd. destruct (Hm _ _ Hd) as [r' Hr'].
  destruct (object_id_keys_unresolved md r' k Hr') as (Ht & Ho1 & Ho2 & _).
  destruct (String.eqb o1 o2), rev; injection H as <-;
    (split; [reflexivity|]); (intros x [<-|Hx]; [right|left; exact Hx]);
    exists r', k; simpl; auto.
Qed.

Lemma relationships_startup_unresolved INL rs st st' :
  relationships_startup md INL registry rs st = Ok st' -> models_generated st ->
  models_generated st' /\
  forall x, In x (st_inlines st') -> In x (st_inlines st) \/ inline_unresolved x.
Proof.
  revert st. induction rs as [|r rs IH]; intros st H Hm.
  - simpl in H. injection H as <-. split; [exact Hm|]. auto.
  - cbn [relationships_startup] in H.
    destruct (seqS_ok _ _ _ _ H) as (st1 & H1 & H2).
    destruct (seqS_ok _ _ _ _ H2) as (st2 & H3 & H4).
    destruct (seqS_ok _ _ _ _ H4) as (st3 & H5 & H6).
    destruct (import_relationship_model_generated _ _ _ H1 Hm) as [Hm1 Hi1].
    assert (E2 : models_generated st2 /\
                 forall x, In x (st_inlines st2) -> In x (st_inlines st1) \/ inline_unresolved x).
    { destruct INL.
      - destruct (seqS_ok _ _ _ _ H3) as (s & Ha & Hb).
        destruct (generate_inline_model_unresolved _ _ _ _ Ha Hm1) as [Ma Ia].
        assert (Hms : models_generated s) by (rewrite Ma; exact Hm1).
        destruct (generate_inline_model_unresolved _ _ _ _ Hb Hms) as [Mb Ib].
        split; [rewrite Mb; exact Hms|].
        intros x Hx. destruct (Ib x Hx) as [Hx'|Hg]; [exact (Ia x Hx')|right; exact Hg].
      - injection H3 as <-. split; [exact Hm1|]. auto. }
    destruct E2 as [Hm2 Hi2].
    assert (E3 : st_models st3 = st_models st2 /\ st_inlines st3 = st_inlines st2).
    { unfold generate_and_register_admin_model, admin_register in H5.
      destruct (dict_get _ (st_models st2)); [|discriminate].
      destruct (registry_get _ (st_registry st2)); [discriminate|].
      injection H5 as <-. split; reflexivity. }
    destruct E3 as [M3 I3].
    assert (Hm3 : models_generated st3) by (rewrite M3; exact Hm2).
    destruct (IH st3 H6 Hm3) as [Hm' Hi']. split; [exact Hm'|].
    intros x Hx. destruct (Hi' x Hx) as [Hx3|Hg]; [|right; exact Hg].
    rewrite I3 in Hx3. destruct (Hi2 x Hx3) as [Hx1|Hg]; [|right; exact Hg].
    rewrite Hi1 in Hx1. left. exact Hx1.
Qed.

End InlineFields.

(** X15: Every inline class the admin start-up generates names, as its
    [ct_fk_field], a field that its relationship model (one generated by
    [models._startup]) does not define: [<type>_object_id], [object_id_1]
    or [object_id_2], where the models have [..._object_pk]. *)
Theorem admin_startup_inline_fk_unresolved md rels INL GEN registry installed st st' :
  models_startup md rels = Ok registry ->
  (forall n k, In (n, k) (st_models st) -> exists r, generate_relationship_model md r = Ok k) ->
  admin_startup md rels INL GEN registry installed st = Ok st' ->
  forall x, In x (st_inlines st') -> In x (st_inlines st) \/
    exists r k, generate_relationship_model md r = Ok k /\ in_model (snd x) = rm_name k /\
                resolves k (in_ct_fk_field (snd x)) = false.
Proof.
  intros Hs Hm H x Hx. unfold admin_startup in H.
  destruct (seqS_ok _ _ _ _ H) as (st1 & H1 & H2).
  destruct (relationships_startup_unresolved md rels registry Hs INL rels st st1 H1 Hm)
    as [_ Hi].
  apply Hi.
  refine (third_party_preserves md rels INL GEN installed
            (fun s => In x (st_inlines s) -> In x (st_inlines st1)) md st1 st' _ H2 _ Hx).
  - intros a m t s1 s2 Hs12 Hp Hx2. apply Hp.
    destruct (add_velcro_step md rels INL GEN installed _ _ _ _ _ Hs12) as (_ & Hi12 & _).
    rewrite <- Hi12. exact Hx2.
  - auto.
Qed.

Lemma admin_startup_inline_fk_unresolved_witness :
  models_startup md_ex rels_ex = Ok registry_ex /\
  exists st', admin_startup md_ex rels_ex true true registry_ex installed_ex admin_state_ex
                = Ok st' /\
  exists x, In x (st_inlines st') /\
  (In x (st_inlines admin_state_ex) \/
   exists r k, generate_relationship_model md_ex r = Ok k /\ in_model (snd x) = rm_name k /\
               resolves k (in_ct_fk_field (snd x)) = false).
Proof.
  assert (Hs : models_startup md_ex rels_ex = Ok registry_ex) by (vm_compute; reflexivity).
  split; [exact Hs|].
  assert (Hst : exists st, admin_startup md_ex rels_ex true true registry_ex installed_ex
                             admin_state_ex = Ok st).
  { exists (match admin_startup md_ex rels_ex true true registry_ex installed_ex
                    admin_state_ex with Ok st => st | Raise _ => admin_state_ex end).
    vm_compute. reflexivity. }
  destruct Hst as [st Hst]. exists st. split; [exact Hst|].
  assert (Hne : exists x, In x (st_inlines st)).
  { assert (E : st_inlines st =
                 match admin_startup md_ex rels_ex true true registry_ex installed_ex
                         admin_state_ex with Ok s => st_inlines s | Raise _ => [] end)
      by (rewrite Hst; reflexivity).
    rewrite E. vm_compute. eexists. left. reflexivity. }
  destruct Hne as [x Hx]. exists x. split; [exact Hx|].
  refine (admin_startup_inline_fk_unresolved md_ex rels_ex true true registry_ex installed_ex
            admin_state_ex st Hs _ Hst x Hx).
  intros n k [].
Defined.

Lemma add_velcro_no_inlines md rels GEN installed app_name model_name t st st' :
  add_velcro_to_third_party_admin md rels false GEN installed app_name model_name t st
    = Ok st' ->
  st_inlines st' = st_inlines st /\
  exists c orig,
    registry_get (AppKey c) (st_registry st) = Some orig /\
    st_registry st' =
      (AppKey c, mk_admin_class (adm_name orig)
                   (if GEN then ["GenericAdminModelAdmin"; adm_name orig]
                    else [adm_name orig])
                   (adm_inlines orig) (adm_readonly orig))
      :: registry_unregister (AppKey c) (st_registry st).
Proof.
  unfold add_velcro_to_third_party_admin.
  destruct (apps_get_installed_model installed app_name model_name) as [c|e];
    [|discriminate].
  destruct (registry_get (AppKey c) (st_registry st)) as [orig|] eqn:Ho; [|discriminate].
  intros [= <-]. split; [reflexivity|]. exists c, orig. auto.
Qed.

Lemma relationships_startup_no_inlines md registry rs st st' :
  relationships_startup md false registry rs st = Ok st' -> st_inlines st' = st_inlines st.
Proof.
  revert st. induction rs as [|r rs IH]; intros st H.
  - simpl in H. injection H as <-. reflexivity.
  - cbn [relationships_startup] in H.
    destruct (seqS_ok _ _ _ _ H) as (st1 & H1 & H2).
    destruct (seqS_ok _ _ _ _ H2) as (st2 & H3 & H4).
    destruct (seqS_ok _ _ _ _ H4) as (st3 & H5 & H6).
    rewrite (IH st3 H6).
    injection H3 as <-.
    unfold generate_and_register_admin_model, admin_register in H5.
    destruct (dict_get _ (st_models st1)); [|discriminate].
    destruct (registry_get _ (st_registry st1)); [discriminate|].
    injection H5 as <-. simpl.
    unfold import_relationship_model in H1.
    destruct (apps_get_model registry _); [|discriminate].
    injection H1 as <-. reflexivity.
Qed.

(** X16: With [VELCRO_INLINES] off, the admin start-up generates no inline class
    and leaves the inlines of every registered model admin as they were. *)
Theorem admin_startup_no_inlines md rels GEN registry installed st st' :
  admin_startup md rels false GEN registry installed st = Ok st' ->
  st_inlines st' = st_inlines st /\
  forall c adm, registry_get (AppKey c) (st_registry st) = Some adm ->
  exists adm', registry_get (AppKey c) (st_registry st') = Some adm' /\
               adm_inlines adm' = adm_inlines adm.
Proof.
  unfold admin_startup. intros H.
  destruct (seqS_ok _ _ _ _ H) as (st1 & H1 & H2).
  split.
  - rewrite <- (relationships_startup_no_inlines md registry rels st st1 H1).
    refine (third_party_preserves md rels false GEN installed
              (fun s => st_inlines s = st_inlines st1) md st1 st' _ H2 eq_refl).
    intros a m t s1 s2 Hs Hp. rewrite <- Hp.
    exact (proj1 (add_velcro_no_inlines md rels GEN installed _ _ _ _ _ Hs)).
  - intros c adm Ha.
    rewrite <- (relationships_startup_app md false registry _ _ _ c H1) in Ha.
    refine (third_party_preserves md rels false GEN installed
              (fun s => exists adm', registry_get (AppKey c) (st_registry s) = Some adm' /\
                                     adm_inlines adm' = adm_inlines adm) md st1 st' _ H2 _).
    + intros a m t s1 s2 Hs (a1 & Hg & Hi).
      destruct (add_velcro_no_inlines md rels GEN installed _ _ _ _ _ Hs)
        as (_ & c0 & orig & Ho & Hr).
      rewrite Hr. cbn [registry_get].
      destruct (model_key_eqb (AppKey c) (AppKey c0)) eqn:E.
      * apply model_key_eqb_eq in E. injection E as ->. rewrite Hg in Ho.
        injection Ho as <-. eexists. split; [reflexivity|]. exact Hi.
      * rewrite registry_get_unregister_other by exact E. exists a1. auto.
    + exists adm. auto.
Qed.

Lemma admin_startup_no_inlines_witness :
  exists st', admin_startup md_ex rels_ex false true registry_ex installed_ex admin_state_ex
                = Ok st' /\ st_inlines st' = st_inlines admin_state_ex.
Proof.
  assert (Hst : exists st, admin_startup md_ex rels_ex false true registry_ex installed_ex
                             admin_state_ex = Ok st).
  { exists (match admin_startup md_ex rels_ex false true registry_ex installed_ex
                    admin_state_ex with Ok st => st | Raise _ => admin_state_ex end).
    vm_compute. reflexivity. }
  destruct Hst as [st Hst]. exists st. split; [exact Hst|].
  exact (proj1 (admin_startup_no_inlines md_ex rels_ex true registry_ex installed_ex
                  admin_state_ex st Hst)).
Defined.
